(** * Emotion_Evaluator: the lexicon sentiment scorer and its HTTP handlers

    A shallow embedding of [analyze.py] (class [SimpleSentimentAnalyzer] with
    [analyze], and [handler]) and of [app.py] ([SimpleSentimentAnalyzer] with
    [analyze_text], and [handler] with routing), followed by the properties
    of the specification.

    Python values are modelled as the interpreter has them: a [str] is a
    sequence of Unicode code points, an [int] is an unbounded integer, a
    [float] is an IEEE 754 binary64 number (the standard library's
    [spec_float] with [prec = 53] and [emax = 1024], whose operations round
    to nearest, ties to even), a [dict] is an insertion-ordered association
    list, and a raised exception is an explicit error result. *)

From Stdlib Require Import ZArith NArith List String Ascii Bool Lia.
From Stdlib Require Import Floats.SpecFloat.
From stdpp Require Import base gmap sets list strings.
Import ListNotations.

Local Open Scope Z_scope.

(* ===================================================================== *)
(** * Python strings *)
(* ===================================================================== *)

Module PyStr.

(** A code point, and a [str]. *)
Definition char := N.
Definition pystr := list char.

(** A Python string literal whose characters are all ASCII. *)
Definition lit (s : string) : pystr :=
  List.map N_of_ascii (list_ascii_of_string s).

(** [len(s)] *)
Definition len {A} (s : list A) : Z := Z.of_nat (List.length s).

(** [c.isspace()]: the code points that [str.split()] and [str.strip()]
    treat as whitespace. *)
Definition is_space (c : char) : bool :=
  ((9 <=? c) && (c <=? 13))%N || ((28 <=? c) && (c <=? 32))%N
  || (c =? 133)%N || (c =? 160)%N || (c =? 5760)%N
  || ((8192 <=? c) && (c <=? 8202))%N
  || (c =? 8232)%N || (c =? 8233)%N || (c =? 8239)%N || (c =? 8287)%N
  || (c =? 12288)%N.

(** [s.lstrip()], [s.rstrip()], [s.strip()] *)
Fixpoint lstrip (s : pystr) : pystr :=
  match s with
  | c :: s' => if is_space c then lstrip s' else s
  | [] => []
  end.

Definition rstrip (s : pystr) : pystr := rev (lstrip (rev s)).

Definition strip (s : pystr) : pystr := rstrip (lstrip s).

(** Truthiness of a string: [not s] holds of the empty string only. *)
Definition truthy (s : pystr) : bool :=
  match s with [] => false | _ :: _ => true end.

(** [s.split()]: the maximal runs of non-whitespace characters, in order.
    [cur] holds the characters of the run being read, last one first. *)
Definition flush (cur : pystr) (rest : list pystr) : list pystr :=
  match cur with [] => rest | _ :: _ => rev cur :: rest end.

Fixpoint split_from (cur : pystr) (s : pystr) : list pystr :=
  match s with
  | [] => flush cur []
  | c :: s' =>
      if is_space c then flush cur (split_from [] s')
      else split_from (c :: cur) s'
  end.

Definition split (s : pystr) : list pystr := split_from [] s.

(** The number of whitespace-delimited tokens of a string, counted without
    building them: a token starts at every non-whitespace character that
    is first or follows a whitespace character. *)
Fixpoint count_tokens_from (inside : bool) (s : pystr) : nat :=
  match s with
  | [] => 0
  | c :: s' =>
      if is_space c then count_tokens_from false s'
      else if inside then count_tokens_from true s'
      else S (count_tokens_from true s')
  end.

Definition count_tokens (s : pystr) : nat := count_tokens_from false s.

(** [sub in s] for two strings: [sub] occurs in [s] as a substring. *)
Fixpoint is_prefix (sub s : pystr) : bool :=
  match sub, s with
  | [], _ => true
  | a :: sub', b :: s' => (a =? b)%N && is_prefix sub' s'
  | _ :: _, [] => false
  end.

Fixpoint contains (s sub : pystr) : bool :=
  is_prefix sub s ||
  match s with
  | [] => false
  | _ :: s' => contains s' sub
  end.

(** The ASCII part of [str.lower()]: A-Z go to a-z. *)
Definition ascii_lower_char (c : char) : char :=
  if ((65 <=? c) && (c <=? 90))%N then (c + 32)%N else c.

Definition ascii_lower (s : pystr) : pystr := List.map ascii_lower_char s.

End PyStr.
Export PyStr.

(** [str.lower()] follows the Unicode character database, which is not part
    of the repository: the scorer is stated over any lowercasing function
    under which whitespace stays whitespace and nothing else becomes
    whitespace (whitespace characters are caseless in Unicode). *)
Class StrLower := {
  str_lower : pystr -> pystr;
  str_lower_blank : forall s : pystr,
    forallb is_space (str_lower s) = forallb is_space s
}.

(* ===================================================================== *)
(** * Exceptions and Python values *)
(* ===================================================================== *)

(** The exceptions the modelled code can raise.  [JSONDecodeError] and
    [UnicodeDecodeError] are the two ways [json.loads(body.decode("utf-8"))]
    fails; only the first is caught by [except json.JSONDecodeError].
    [UnicodeEncodeError] is how
    [json.dumps(data, ensure_ascii=False).encode("utf-8")] fails.
    [OtherException] stands for any other exception, of the evaluator for
    instance.  A handler uses of an exception its text [str(e)] only, and
    the text is taken to be one that can be encoded (see [encodable]). *)
Inductive exn :=
| ZeroDivisionError
| KeyError (key : pystr)
| TypeError
| AttributeError
| ValueError
| JSONDecodeError
| UnicodeDecodeError
| UnicodeEncodeError
| OtherException.

Inductive res (A : Type) :=
| Ok (a : A)
| Raise (e : exn).
Arguments Ok {A} a.
Arguments Raise {A} e.

Definition bind {A B} (m : res A) (k : A -> res B) : res B :=
  match m with
  | Ok a => k a
  | Raise e => Raise e
  end.

#[global] Instance res_bind : MBind res := fun A B k m => bind m k.
#[global] Instance res_ret : MRet res := @Ok.

(** Values: [None], [bool], [int], [float], [str], [list], [dict], and the
    text [str(e)] of a caught exception, kept symbolic because its wording
    belongs to the interpreter. *)
#[warnings="-register-all"]
Inductive pyval :=
| PNone
| PBool (b : bool)
| PInt (z : Z)
| PFloat (f : spec_float)
| PStr (s : pystr)
| PList (l : list pyval)
| PDict (d : list (pystr * pyval))
| PExnStr (e : exn).

Definition pydict := list (pystr * pyval).

Definition str_eqb (a b : pystr) : bool := bool_decide (a = b).

(** [d.get(k)] as an option, [k in d], and [d[k] = v] (a new key goes last,
    an existing key keeps its place). *)
Fixpoint dget (k : pystr) (d : pydict) : option pyval :=
  match d with
  | [] => None
  | (k', v) :: d' => if str_eqb k k' then Some v else dget k d'
  end.

Definition dhas (k : pystr) (d : pydict) : bool :=
  match dget k d with Some _ => true | None => false end.

Fixpoint dset (k : pystr) (v : pyval) (d : pydict) : pydict :=
  match d with
  | [] => [(k, v)]
  | (k', v') :: d' => if str_eqb k k' then (k, v) :: d' else (k', v') :: dset k v d'
  end.

(** [d[k]] on a dict. *)
Definition dgetitem (k : pystr) (d : pydict) : res pyval :=
  match dget k d with
  | Some v => Ok v
  | None => Raise (KeyError k)
  end.

(** [k in x] for a string [k] and an arbitrary value [x]: key membership
    in a dict, element membership in a list, substring test in a string,
    and [TypeError] for a value that is not a container. *)
Definition is_str (k : pystr) (v : pyval) : bool :=
  match v with PStr s => str_eqb s k | _ => false end.

Definition py_in (k : pystr) (x : pyval) : res bool :=
  match x with
  | PDict d => Ok (dhas k d)
  | PList l => Ok (existsb (is_str k) l)
  | PStr s => Ok (contains s k)
  | _ => Raise TypeError
  end.

(** [x[k]] for a string [k]: defined on dicts only; lists and strings want
    integer indices, the other values are not subscriptable. *)
Definition py_getitem (x : pyval) (k : pystr) : res pyval :=
  match x with
  | PDict d => dgetitem k d
  | _ => Raise TypeError
  end.

(** Whether [json.dumps(data, ensure_ascii=False).encode("utf-8")]
    succeeds.  Every value here can be serialised, and with
    [ensure_ascii=False] the characters of its strings reach the encoder as
    they are: the encoding fails, with [UnicodeEncodeError], exactly when a
    string of the value, a key or an entry, holds a surrogate code point
    (U+D800 to U+DFFF).  The text of an exception is a message of the
    interpreter, which escapes what it quotes: it can always be encoded. *)
Definition is_surrogate (c : char) : bool := ((55296 <=? c) && (c <=? 57343))%N.

Definition encodable_str (s : pystr) : bool :=
  forallb (fun c => negb (is_surrogate c)) s.

Fixpoint encodable (data : pyval) : bool :=
  match data with
  | PStr s => encodable_str s
  | PList l => forallb encodable l
  | PDict d =>
      forallb (fun entry => match entry with
                            | (k, v) => encodable_str k && encodable v
                            end) d
  | PNone | PBool _ | PInt _ | PFloat _ | PExnStr _ => true
  end.

(* ===================================================================== *)
(** * Python floats: IEEE 754 binary64 *)
(* ===================================================================== *)

Module F64.

Definition prec : Z := 53.
Definition emax : Z := 1024.

Definition add := SFadd prec emax.
Definition mul := SFmul prec emax.
Definition div := SFdiv prec emax.
Definition neg := SFopp.
Definition ltb := SFltb.
Definition leb := SFleb.
Definition eqb := SFeqb.

(** An integer as an exact (not yet rounded) binary number. *)
Definition exact (z : Z) : spec_float :=
  match z with
  | Z0 => S754_zero false
  | Zpos p => S754_finite false p 0
  | Zneg p => S754_finite true p 0
  end.

(** [float(z)]: the nearest double. *)
Definition of_int (z : Z) : spec_float := binary_normalize prec emax z 0 false.

(** [a / b] on two ints: the correctly rounded quotient, or
    [ZeroDivisionError]. *)
Definition int_true_div (a b : Z) : res spec_float :=
  if b =? 0 then Raise ZeroDivisionError else Ok (div (exact a) (exact b)).

(** The float literals of the source, as the nearest doubles. *)
Definition f0_0 : spec_float := S754_zero false.
Definition f0_5 : spec_float := S754_finite false 4503599627370496 (-53).
Definition f1_0 : spec_float := S754_finite false 4503599627370496 (-52).
Definition f0_05 : spec_float := S754_finite false 7205759403792794 (-57).
Definition f0_3 : spec_float := S754_finite false 5404319552844595 (-54).

(** [min(a, b)] on floats: the first argument unless the second is
    smaller. *)
Definition py_min (a b : spec_float) : spec_float := if ltb b a then b else a.

(** Round to nearest, ties to even, of the rational [n / d] for [d > 0]. *)
Definition round_half_even (n d : Z) : Z :=
  let q := n / d in
  let r := n mod d in
  match 2 * r ?= d with
  | Lt => q
  | Gt => q + 1
  | Eq => if Z.even q then q else q + 1
  end.

(** [round(x, ndigits)] for a float and [ndigits >= 0]: the exact value of
    [x] is rounded to [ndigits] decimal places, ties to even, and the
    decimal so obtained is converted back to the nearest double. *)
Definition py_round (x : spec_float) (ndigits : nat) : spec_float :=
  match x with
  | S754_finite s m e =>
      let scale := 10 ^ Z.of_nat ndigits in
      let k := if 0 <=? e then Z.pos m * 2 ^ e * scale
               else round_half_even (Z.pos m * scale) (2 ^ (- e)) in
      if k =? 0 then S754_zero s
      else div (exact (if s then - k else k)) (exact scale)
  | _ => x
  end.

End F64.

(* ===================================================================== *)
(** * What the two scorers share *)
(* ===================================================================== *)

(** The emoji of the three verdicts, and the fallback one of [app.py]. *)
Definition emoji_neutral : pystr := [128528%N].
Definition emoji_positive : pystr := [128522%N].
Definition emoji_negative : pystr := [128542%N].
Definition emoji_thinking : pystr := [129300%N].

(** [sum(1 for word in words if word in lexicon)] *)
Definition count_in (lexicon : gset pystr) (words : list pystr) : Z :=
  len (filter (fun word => word ∈ lexicon) words).

(** [not text or not text.strip()] *)
Definition is_empty_text (text : pystr) : bool :=
  negb (truthy text) || negb (truthy (strip text)).

(** The [if]/[elif]/[else] on [sentiment_score]: the sentiment, the message
    and the emoji. *)
Definition classify (sentiment_score : spec_float) : pystr * pystr * pystr :=
  if F64.ltb F64.f0_05 sentiment_score then
    (lit "positive", lit "Positive sentiment detected!", emoji_positive)
  else if F64.ltb sentiment_score (F64.neg F64.f0_05) then
    (lit "negative", lit "Negative sentiment detected!", emoji_negative)
  else
    (lit "neutral", lit "Neutral sentiment detected", emoji_neutral).

(* ===================================================================== *)
(** * The traces of a request handler *)
(* ===================================================================== *)

(** What a handler does that can be seen from outside: it calls a scorer on
    a text, it writes a response (the status line and the headers, and
    after them the JSON document serialised from [body] when there is one:
    the preflight answer has none, and neither has an answer whose document
    could not be encoded), or the base class [BaseHTTPRequestHandler]
    answers for it with [send_error]. *)
Inductive scorer := SimpleScorer | FullEvaluator.

Inductive effect :=
| CallScorer (which : scorer) (text : pystr)
| SendResponse (status : Z) (headers : list (pystr * pystr)) (body : option pyval)
| SendError (status : Z).

(** A request as the handler reads it.  [content_length] is the outcome of
    [int(self.headers.get("Content-Length", 0))] (0 when the header is
    absent), and [payload] the outcome of
    [json.loads(self.rfile.read(content_length).decode("utf-8"))]. *)
Record request := {
  command : pystr;
  path : pystr;
  content_length : res Z;
  payload : res pyval
}.

(** What [datetime.now().isoformat()] returns while a request is handled:
    digits and punctuation, ASCII in any case. *)
Record timestamp := {
  iso :> pystr;
  iso_ascii : forallb (fun c => (c <? 128)%N) iso = true
}.

(** Handler code runs in a writer over the trace, with exceptions. *)
Definition io (A : Type) : Type := list effect * res A.

Definition io_bind {A B} (m : io A) (k : A -> io B) : io B :=
  match m with
  | (t, Ok a) => let '(t', r) := k a in (t ++ t', r)
  | (t, Raise e) => (t, Raise e)
  end.

#[global] Instance io_mbind : MBind io := fun A B k m => io_bind m k.
#[global] Instance io_mret : MRet io := fun A a => ([], Ok a).

Definition emit (e : effect) : io unit := ([e], Ok tt).
Definition lift {A} (r : res A) : io A := ([], r).

(** [try: m except Exception as e: handler(e)] *)
Definition try_except {A} (m : io A) (handler : exn -> io A) : io A :=
  match m with
  | (t, Raise e) => let '(t', r) := handler e in (t ++ t', r)
  | (t, Ok a) => (t, Ok a)
  end.

(** [self.path.split("?")[0]]: the path up to the first question mark. *)
Fixpoint before_query (p : pystr) : pystr :=
  match p with
  | [] => []
  | c :: p' => if (c =? 63)%N then [] else c :: before_query p'
  end.

(* ===================================================================== *)
(** * analyze.py *)
(* ===================================================================== *)

Module Analyze.

Definition positive_words : gset pystr :=
  list_to_set (lit <$>
    ["good"; "great"; "excellent"; "amazing"; "wonderful"; "fantastic";
     "awesome"; "love"; "like"; "enjoy"; "happy"; "pleased"; "satisfied";
     "delighted"; "perfect"; "outstanding"; "superb"; "brilliant";
     "magnificent"; "terrific"; "best"; "favorite"; "recommend";
     "impressed"; "beautiful"; "nice"; "positive"; "fresh"; "delicious";
     "tasty"; "quality"; "fast"; "helpful"; "incredible";
     "extraordinary"]%string).

Definition negative_words : gset pystr :=
  list_to_set (lit <$>
    ["bad"; "terrible"; "awful"; "horrible"; "disgusting"; "hate";
     "dislike"; "disappointed"; "unsatisfied"; "unhappy"; "angry";
     "frustrated"; "annoyed"; "worst"; "poor"; "cheap"; "broken";
     "defective"; "useless"; "waste"; "negative"; "slow"; "expensive";
     "rude"; "dirty"; "stale"; "bland"; "bitter"; "sour"; "wrong";
     "failed"; "problem"; "issue"; "complaint"; "disaster";
     "dreadful"]%string).

Section WithLower.
Context `{StrLower}.

(** [SimpleSentimentAnalyzer.analyze]; [now] is what
    [datetime.now().isoformat()] returns during the call. *)
Definition analyze (now : pystr) (text : pystr) : res pyval :=
  if is_empty_text text then
    mret (PDict [(lit "sentiment", PStr (lit "neutral"));
                 (lit "confidence", PFloat F64.f0_0);
                 (lit "message", PStr (lit "Empty text"));
                 (lit "emoji", PStr emoji_neutral)])
  else
    let words := split (str_lower text) in
    let positive_count := count_in positive_words words in
    let negative_count := count_in negative_words words in
    let total_sentiment_words := positive_count + negative_count in
    if total_sentiment_words =? 0 then
      mret (PDict [(lit "sentiment", PStr (lit "neutral"));
                   (lit "confidence", PFloat F64.f0_5);
                   (lit "message", PStr (lit "Neutral sentiment detected"));
                   (lit "emoji", PStr emoji_neutral)])
    else
      sentiment_score ← F64.int_true_div (positive_count - negative_count) (len words);
      ratio ← F64.int_true_div total_sentiment_words (Z.max 1 (len words));
      let confidence := F64.py_min F64.f1_0 (F64.add ratio F64.f0_3) in
      let '(sentiment, message, emoji) := classify sentiment_score in
      mret (PDict [(lit "sentiment", PStr sentiment);
                   (lit "confidence", PFloat (F64.py_round confidence 3));
                   (lit "message", PStr message);
                   (lit "emoji", PStr emoji);
                   (lit "metadata",
                     PDict [(lit "text_length", PInt (len text));
                            (lit "word_count", PInt (len words));
                            (lit "positive_words", PInt positive_count);
                            (lit "negative_words", PInt negative_count);
                            (lit "timestamp", PStr now)])]).

(** [handler._set_headers] and [handler._send_json] *)
Definition headers : list (pystr * pystr) :=
  [(lit "Content-Type", lit "application/json");
   (lit "Access-Control-Allow-Origin", lit "*");
   (lit "Access-Control-Allow-Methods", lit "POST, OPTIONS");
   (lit "Access-Control-Allow-Headers", lit "Content-Type")].

(** [_send_json] sends the status line and the headers first
    ([_set_headers] ends with [end_headers]), then serialises and encodes
    [data], and writes the document: when the encoding fails, the head has
    gone out and the exception is raised to the caller. *)
Definition _send_json (data : pyval) (status_code : Z) : io unit :=
  if encodable data then emit (SendResponse status_code headers (Some data))
  else emit (SendResponse status_code headers None);;
       lift (Raise UnicodeEncodeError).

Definition error_body (message : string) : pyval :=
  PDict [(lit "error", PStr (lit message))].

(** [handler.do_OPTIONS] *)
Definition do_OPTIONS : io unit :=
  emit (SendResponse 200 headers None).

(** [handler.do_POST] *)
Definition do_POST (now : timestamp) (req : request) : io unit :=
  try_except
    (content_length ← lift (content_length req);
     if content_length =? 0 then
       _send_json (error_body "No data provided") 400
     else
       match payload req with
       | Raise JSONDecodeError => _send_json (error_body "Invalid JSON") 400
       | Raise e => lift (Raise e)
       | Ok data =>
           has_text ← lift (py_in (lit "text") data);
           if negb has_text then
             _send_json (error_body "Missing text field") 400
           else
             text ← lift (py_getitem data (lit "text"));
             match text with
             | PStr s =>
                 if negb (truthy (strip s)) then
                   _send_json (error_body "Text must be a non-empty string") 400
                 else
                   emit (CallScorer SimpleScorer s);;
                   result ← lift (analyze now s);
                   _send_json result 200
             | _ => _send_json (error_body "Text must be a non-empty string") 400
             end
       end)
    (fun e =>
       _send_json (PDict [(lit "error", PStr (lit "Internal server error"));
                          (lit "message", PExnStr e)]) 500).

(** The dispatch of [BaseHTTPRequestHandler]: the method [do_<command>] when
    the class defines it, [send_error(501)] otherwise. *)
Definition handle (now : timestamp) (req : request) : io unit :=
  if str_eqb (command req) (lit "OPTIONS") then do_OPTIONS
  else if str_eqb (command req) (lit "POST") then do_POST now req
  else emit (SendError 501).

End WithLower.

End Analyze.

(* ===================================================================== *)
(** * app.py *)
(* ===================================================================== *)

Module App.

Definition positive_words : gset pystr :=
  list_to_set (lit <$>
    ["good"; "great"; "excellent"; "amazing"; "wonderful"; "fantastic";
     "awesome"; "love"; "like"; "enjoy"; "happy"; "pleased"; "satisfied";
     "delighted"; "perfect"; "outstanding"; "superb"; "brilliant";
     "magnificent"; "terrific"; "best"; "favorite"; "recommend";
     "impressed"; "beautiful"; "nice"; "positive"; "fresh"; "delicious";
     "tasty"; "quality"; "fast"; "helpful"; "incredible";
     "extraordinary"; "remarkable"; "spectacular"; "marvelous";
     "phenomenal"; "splendid"]%string).

Definition negative_words : gset pystr :=
  list_to_set (lit <$>
    ["bad"; "terrible"; "awful"; "horrible"; "disgusting"; "hate";
     "dislike"; "disappointed"; "unsatisfied"; "unhappy"; "angry";
     "frustrated"; "annoyed"; "worst"; "poor"; "cheap"; "broken";
     "defective"; "useless"; "waste"; "negative"; "slow"; "expensive";
     "rude"; "dirty"; "stale"; "bland"; "bitter"; "sour"; "wrong";
     "failed"; "problem"; "issue"; "complaint"; "disaster"; "dreadful";
     "appalling"; "atrocious"; "deplorable"; "detestable"; "ghastly";
     "hideous"; "loathsome"; "miserable"; "nasty"; "revolting"]%string).

(** [round(confidence * 100, 1)] on a float. *)
Definition percentage (confidence : spec_float) : spec_float :=
  F64.py_round (F64.mul confidence (F64.of_int 100)) 1.

Section WithLower.
Context `{StrLower}.

(** [SimpleSentimentAnalyzer.analyze_text] *)
Definition analyze_text (now : pystr) (text : pystr) : res pyval :=
  if is_empty_text text then
    mret (PDict [(lit "sentiment", PStr (lit "neutral"));
                 (lit "confidence", PFloat F64.f0_0);
                 (lit "message", PStr (lit "Empty text provided"));
                 (lit "emoji", PStr emoji_neutral)])
  else
    let words := split (str_lower text) in
    let positive_count := count_in positive_words words in
    let negative_count := count_in negative_words words in
    let total_sentiment_words := positive_count + negative_count in
    if total_sentiment_words =? 0 then
      mret (PDict [(lit "sentiment", PStr (lit "neutral"));
                   (lit "confidence", PFloat F64.f0_5);
                   (lit "message", PStr (lit "Neutral sentiment detected"));
                   (lit "emoji", PStr emoji_neutral)])
    else
      sentiment_score ← F64.int_true_div (positive_count - negative_count) (len words);
      ratio ← F64.int_true_div total_sentiment_words (Z.max 1 (len words));
      let confidence := F64.py_min F64.f1_0 (F64.add ratio F64.f0_3) in
      let '(sentiment, message, emoji) := classify sentiment_score in
      mret (PDict [(lit "sentiment", PStr sentiment);
                   (lit "confidence", PFloat (F64.py_round confidence 3));
                   (lit "message", PStr message);
                   (lit "emoji", PStr emoji);
                   (lit "scores",
                     PDict [(lit "confidence", PFloat (F64.py_round confidence 3));
                            (lit "confidence_percentage", PFloat (percentage confidence))]);
                   (lit "metadata",
                     PDict [(lit "text_length", PInt (len text));
                            (lit "word_count", PInt (len words));
                            (lit "analysis_timestamp", PStr now);
                            (lit "api_version", PStr (lit "1.0"));
                            (lit "method", PStr (lit "SimpleFallback"))])]).

(** The module-level [evaluator]: the [EmotionEvaluator] of
    [sentiment_engine], which is not among these sources, or [None] when its
    construction failed.  Its [analyze_text] is taken as it comes: any of
    the values above, or any of the exceptions above. *)
Variable evaluator : option (pystr -> res pyval).

(** [handler._set_cors_headers], [_send_json_response] and
    [_send_error_response] *)
Definition cors_headers : list (pystr * pystr) :=
  [(lit "Access-Control-Allow-Origin", lit "*");
   (lit "Access-Control-Allow-Methods", lit "GET, POST, OPTIONS");
   (lit "Access-Control-Allow-Headers", lit "Content-Type, Authorization")].

(** [_send_json_response] sends the status line and the headers first
    (up to [end_headers]), then serialises and encodes [data], and writes
    the document: when the encoding fails, the head has gone out and the
    exception is raised to the caller. *)
Definition _send_json_response (data : pyval) (status_code : Z) : io unit :=
  if encodable data then
    emit (SendResponse status_code
            ((lit "Content-Type", lit "application/json") :: cors_headers)
            (Some data))
  else
    emit (SendResponse status_code
            ((lit "Content-Type", lit "application/json") :: cors_headers)
            None);;
    lift (Raise UnicodeEncodeError).

Definition _send_error_response (now : timestamp) (message : string) (status_code : Z) : io unit :=
  _send_json_response
    (PDict [(lit "error", PStr (lit message));
            (lit "timestamp", PStr now);
            (lit "status_code", PInt status_code)])
    status_code.

(** [handler.do_OPTIONS] *)
Definition do_OPTIONS : io unit :=
  emit (SendResponse 200 cors_headers None).

(** [handler.do_GET] *)
Definition do_GET (now : timestamp) (req : request) : io unit :=
  let path := before_query (path req) in
  if str_eqb path (lit "/api/health") || str_eqb path (lit "/health") then
    _send_json_response
      (PDict [(lit "status", PStr (lit "healthy"));
              (lit "timestamp", PStr now);
              (lit "version", PStr (lit "1.0"));
              (lit "evaluator_available",
                PBool (match evaluator with Some _ => true | None => false end));
              (lit "platform", PStr (lit "Vercel Serverless"))])
      200
  else
    _send_error_response now "Endpoint not found" 404.

(** The formatting of the full evaluator's answer for the frontend. *)
Definition verdict_maps (sentiment : pystr) : pystr * pystr :=
  if str_eqb sentiment (lit "positive") then
    (lit "Positive sentiment detected!", emoji_positive)
  else if str_eqb sentiment (lit "negative") then
    (lit "Negative sentiment detected!", emoji_negative)
  else if str_eqb sentiment (lit "neutral") then
    (lit "Neutral sentiment detected", emoji_neutral)
  else (lit "Sentiment analyzed", emoji_thinking).

(** [x.lower()] on an arbitrary value. *)
Definition py_lower (x : pyval) : res pystr :=
  match x with
  | PStr s => Ok (str_lower s)
  | _ => Raise AttributeError
  end.

(** [round(confidence * 100, 1)] on an arbitrary value: a float is scaled
    and rounded, an int or bool is scaled, and nothing else can be both
    multiplied and rounded. *)
Definition py_percentage (confidence : pyval) : res pyval :=
  match confidence with
  | PFloat f => Ok (PFloat (percentage f))
  | PInt z => Ok (PInt (z * 100))
  | PBool b => Ok (PInt (if b then 100 else 0))
  | _ => Raise TypeError
  end.

(** [result.get("analysis_method", "EmotionEvaluator")] *)
Definition py_get_method (result : pyval) : res pyval :=
  match result with
  | PDict d =>
      Ok (match dget (lit "analysis_method") d with
          | Some v => v
          | None => PStr (lit "EmotionEvaluator")
          end)
  | _ => Raise AttributeError
  end.

Definition format_for_frontend (now text : pystr) (result : pyval) : res pyval :=
  has_error ← py_in (lit "error") result;
  if negb has_error then
    raw_sentiment ← py_getitem result (lit "sentiment");
    sentiment ← py_lower raw_sentiment;
    confidence ← py_getitem result (lit "confidence");
    let '(message, emoji) := verdict_maps sentiment in
    confidence_percentage ← py_percentage confidence;
    method ← py_get_method result;
    mret (PDict [(lit "sentiment", PStr sentiment);
                 (lit "confidence", confidence);
                 (lit "message", PStr message);
                 (lit "emoji", PStr emoji);
                 (lit "scores",
                   PDict [(lit "confidence", confidence);
                          (lit "confidence_percentage", confidence_percentage)]);
                 (lit "metadata",
                   PDict [(lit "text_length", PInt (len text));
                          (lit "word_count", PInt (len (split text)));
                          (lit "analysis_timestamp", PStr now);
                          (lit "api_version", PStr (lit "1.0"));
                          (lit "method", method);
                          (lit "platform", PStr (lit "Vercel Serverless"))])])
  else mret result.

(** [formatted_result["metadata"]["platform"] = "Vercel Serverless"] *)
Definition set_platform (formatted_result : pyval) : res pyval :=
  metadata ← py_getitem formatted_result (lit "metadata");
  match formatted_result, metadata with
  | PDict d, PDict md =>
      Ok (PDict (dset (lit "metadata")
                   (PDict (dset (lit "platform") (PStr (lit "Vercel Serverless")) md)) d))
  | _, _ => Raise TypeError
  end.

(** [handler.do_POST] *)
Definition do_POST (now : timestamp) (req : request) : io unit :=
  let path := before_query (path req) in
  if negb (str_eqb path (lit "/api/analyze") || str_eqb path (lit "/analyze")) then
    _send_error_response now "Endpoint not found" 404
  else
    try_except
      (content_length ← lift (content_length req);
       if content_length =? 0 then
         _send_error_response now "No data provided" 400
       else
         match payload req with
         | Raise JSONDecodeError => _send_error_response now "Invalid JSON format" 400
         | Raise e => lift (Raise e)
         | Ok data =>
             has_text ← lift (py_in (lit "text") data);
             if negb has_text then
               _send_error_response now "Missing 'text' field" 400
             else
               text ← lift (py_getitem data (lit "text"));
               match text with
               | PStr s =>
                   if negb (truthy (strip s)) then
                     _send_error_response now "Text must be a non-empty string" 400
                   else
                     formatted_result ←
                       match evaluator with
                       | Some evaluator_analyze_text =>
                           emit (CallScorer FullEvaluator s);;
                           result ← lift (evaluator_analyze_text s);
                           lift (format_for_frontend now s result)
                       | None =>
                           emit (CallScorer SimpleScorer s);;
                           formatted_result ← lift (analyze_text now s);
                           lift (set_platform formatted_result)
                       end;
                     _send_json_response formatted_result 200
               | _ => _send_error_response now "Text must be a non-empty string" 400
               end
         end)
      (fun e =>
         _send_json_response
           (PDict [(lit "error", PStr (lit "Internal server error"));
                   (lit "message", PExnStr e);
                   (lit "timestamp", PStr now)])
           500).

(** The dispatch of [BaseHTTPRequestHandler]. *)
Definition handle (now : timestamp) (req : request) : io unit :=
  if str_eqb (command req) (lit "OPTIONS") then do_OPTIONS
  else if str_eqb (command req) (lit "GET") then do_GET now req
  else if str_eqb (command req) (lit "POST") then do_POST now req
  else emit (SendError 501).

End WithLower.

End App.

(* ===================================================================== *)
(** * Reading results and traces *)
(* ===================================================================== *)

(** [result[k]] of a returned dict, and [result["metadata"][k]]. *)
Definition field (k : string) (result : res pyval) : option pyval :=
  match result with
  | Ok (PDict d) => dget (lit k) d
  | _ => None
  end.

Definition metadata_field (k : string) (result : res pyval) : option pyval :=
  match field "metadata" result with
  | Some (PDict md) => dget (lit k) md
  | _ => None
  end.

(** The three verdicts. *)
Definition verdict_positive : pystr * pystr * pystr :=
  (lit "positive", lit "Positive sentiment detected!", emoji_positive).
Definition verdict_negative : pystr * pystr * pystr :=
  (lit "negative", lit "Negative sentiment detected!", emoji_negative).
Definition verdict_neutral : pystr * pystr * pystr :=
  (lit "neutral", lit "Neutral sentiment detected", emoji_neutral).

(** The sentiment, message and emoji of a result. *)
Definition verdict_of (result : res pyval) : option (pystr * pystr * pystr) :=
  match field "sentiment" result, field "message" result, field "emoji" result with
  | Some (PStr s), Some (PStr m), Some (PStr e) => Some (s, m, e)
  | _, _, _ => None
  end.

(** At least one token is a word of one of the two lexicons. *)
Definition matches (pos neg : gset pystr) (words : list pystr) : Prop :=
  Exists (fun w => (w ∈ pos) \/ (w ∈ neg)) words.

(** No token is a word of either lexicon. *)
Definition matches_nothing (pos neg : gset pystr) (words : list pystr) : Prop :=
  Forall (fun w => (w ∉ pos) /\ (w ∉ neg)) words.

(** The effects of a run. *)
Definition trace {A} (m : io A) : list effect := fst m.

(** The status codes of the responses of a run, in order. *)
Definition status_of (e : effect) : option Z :=
  match e with
  | SendResponse status _ _ => Some status
  | SendError status => Some status
  | CallScorer _ _ => None
  end.

Definition statuses {A} (m : io A) : list Z := omap status_of (trace m).

(** The 404 answer of app.py. *)
Definition not_found now : io unit :=
  ([SendResponse 404
      ((lit "Content-Type", lit "application/json") :: App.cors_headers)
      (Some (PDict [(lit "error", PStr (lit "Endpoint not found"));
                    (lit "timestamp", PStr now);
                    (lit "status_code", PInt 404)]))],
   Ok tt).

(** The mantissa of the double 0.3, and the positive normal doubles that are
    at least 0.3: 53 significant bits, and an exponent above that of 0.3 or
    the same exponent with a mantissa that is not smaller. *)
Definition m0_3 : positive := 5404319552844595.

Definition at_least_0_3 (x : spec_float) : bool :=
  match x with
  | S754_finite false m e =>
      (Z.pos (digits2_pos m) =? 53)
      && ((-54 <? e) || ((e =? -54) && (Z.pos m0_3 <=? Z.pos m)))
  | _ => false
  end.

(** What a rounding can return: the sign is the one it was given. *)
Inductive signed (sx : bool) : spec_float -> Prop :=
| signed_zero : signed sx (S754_zero sx)
| signed_infinity : signed sx (S754_infinity sx)
| signed_nan : signed sx S754_nan
| signed_finite m e : signed sx (S754_finite sx m e).

(** The doubles from 0.3 to 1.0. *)
Definition from_0_3_to_1 (x : spec_float) : bool :=
  F64.leb F64.f0_3 x && F64.leb x F64.f1_0.

Definition thousandth_ok (k : Z) : bool :=
  from_0_3_to_1 (F64.div (F64.exact k) (F64.exact 1000)).

(** [sentiment_score] and the rounded [confidence] of the scored branch,
    from the two counts and the number of words. *)
Definition score_of (positive_count negative_count word_count : Z) : spec_float :=
  F64.div (F64.exact (positive_count - negative_count)) (F64.exact word_count).

Definition confidence_of (total_sentiment_words word_count : Z) : spec_float :=
  F64.py_round
    (F64.py_min F64.f1_0
       (F64.add (F64.div (F64.exact total_sentiment_words)
                         (F64.exact (Z.max 1 word_count)))
                F64.f0_3))
    3.

(** The 400 answers of the two POST handlers, the 200 and the 500 answer
    of app.py, and the 500 answer of analyze.py. *)
Definition analyze_rejection (message : string) : io unit :=
  ([SendResponse 400 Analyze.headers (Some (Analyze.error_body message))], Ok tt).

Definition app_rejection (now : pystr) (message : string) : io unit :=
  ([SendResponse 400
      ((lit "Content-Type", lit "application/json") :: App.cors_headers)
      (Some (PDict [(lit "error", PStr (lit message));
                    (lit "timestamp", PStr now);
                    (lit "status_code", PInt 400)]))],
   Ok tt).

Definition app_ok (body : pyval) : effect :=
  SendResponse 200 ((lit "Content-Type", lit "application/json") :: App.cors_headers)
    (Some body).

Definition app_internal_error (now : pystr) (e : exn) : effect :=
  SendResponse 500 ((lit "Content-Type", lit "application/json") :: App.cors_headers)
    (Some (PDict [(lit "error", PStr (lit "Internal server error"));
                  (lit "message", PExnStr e);
                  (lit "timestamp", PStr now)])).

Definition analyze_internal_error (e : exn) : io unit :=
  ([SendResponse 500 Analyze.headers
      (Some (PDict [(lit "error", PStr (lit "Internal server error"));
                    (lit "message", PExnStr e)]))],
   Ok tt).

(** The body of the health answer of app.py. *)
Definition health_data (evaluator_available : bool) (now : pystr) : pyval :=
  PDict [(lit "status", PStr (lit "healthy"));
         (lit "timestamp", PStr now);
         (lit "version", PStr (lit "1.0"));
         (lit "evaluator_available", PBool evaluator_available);
         (lit "platform", PStr (lit "Vercel Serverless"))].

(** A value that is not a string with something besides whitespace. *)
Definition not_a_text (v : pyval) : Prop :=
  forall s, v = PStr s -> forallb is_space s = true.

(** A JSON value that is no container: null, a boolean or a number. *)
Definition is_scalar (data : pyval) : bool :=
  match data with
  | PNone | PBool _ | PInt _ | PFloat _ => true
  | _ => false
  end.

(** The path is one of the two analysis paths of app.py. *)
Definition on_analysis_path (req : request) : Prop :=
  before_query (path req) ∈ [lit "/api/analyze"; lit "/analyze"].

(** A request with a valid text: a POST whose body is a JSON object with a
    string under [text] that is not all whitespace. *)
Definition carries_text (req : request) (text : pystr) : Prop :=
  command req = lit "POST"
  /\ exists n d,
       content_length req = Ok n /\ n <> 0
       /\ payload req = Ok (PDict d)
       /\ dget (lit "text") d = Some (PStr text)
       /\ forallb is_space text = false.





(** A sentiment that is one of the three, with the emoji that goes with
    it. *)
Definition well_formed_verdict (result : res pyval) : Prop :=
  exists message,
    verdict_of result = Some (lit "positive", message, emoji_positive)
    \/ verdict_of result = Some (lit "negative", message, emoji_negative)
    \/ verdict_of result = Some (lit "neutral", message, emoji_neutral).

(** [k / 1000] as a double. *)
Definition thousandths (k : Z) : spec_float := F64.div (F64.exact k) (F64.exact 1000).

(* ===================================================================== *)
(** * Sample inputs *)
(* ===================================================================== *)

(** Two timestamps; a text of twenty words with one positive word (its
    score is 1/20, the double 0.05 itself); a text of two words with one
    positive word, and the same text in another case; a text with two
    negative words; a text with no word of a lexicon; a text of
    whitespace. *)
Definition sample_now : timestamp :=
  {| iso := lit "2024-05-01T12:00:00.000000"; iso_ascii := eq_refl |}.
Definition later_now : pystr := lit "2025-01-31T08:30:00.123456".

Definition boundary_text : pystr :=
  lit "Good a b c d e f g h i j k l m n o p q r s".

Definition hit_text : pystr := lit "Good food".
Definition shouted_text : pystr := lit "GOOD Food".
Definition gloomy_text : pystr := lit "Terrible food and slow service".

Definition plain_text : pystr := lit "The sky is blue today".

Definition blank_text : pystr := [32%N; 9%N; 10%N; 12288%N].

(** Requests: a POST on an analysis path whose body is the JSON number 5;
    a POST on another path with a text to score; a PUT. *)
Definition number_body_request : request :=
  {| command := lit "POST"; path := lit "/api/analyze";
     content_length := Ok 1; payload := Ok (PInt 5) |}.

Definition elsewhere_request : request :=
  {| command := lit "POST"; path := lit "/other";
     content_length := Ok 21; payload := Ok (PDict [(lit "text", PStr hit_text)]) |}.

Definition put_request : request :=
  {| command := lit "PUT"; path := lit "/api/analyze";
     content_length := Ok 21; payload := Ok (PDict [(lit "text", PStr hit_text)]) |}.

Definition get_elsewhere_request : request :=
  {| command := lit "GET"; path := lit "/status?verbose=1";
     content_length := Ok 0; payload := Raise JSONDecodeError |}.

(** More requests: on an analysis path with a query string and a text to
    score; with a text without a word of a lexicon; with the empty object
    as body; with a Content-Length that is no number; a health check with
    a query string.  And an evaluator that answers "MIXED" to everything. *)
Definition valid_request : request :=
  {| command := lit "POST"; path := lit "/api/analyze?lang=en";
     content_length := Ok 21; payload := Ok (PDict [(lit "text", PStr hit_text)]) |}.

Definition plain_request : request :=
  {| command := lit "POST"; path := lit "/analyze";
     content_length := Ok 33; payload := Ok (PDict [(lit "text", PStr plain_text)]) |}.

Definition empty_object_request : request :=
  {| command := lit "POST"; path := lit "/analyze";
     content_length := Ok 2; payload := Ok (PDict []) |}.

Definition bad_length_request : request :=
  {| command := lit "POST"; path := lit "/analyze";
     content_length := Raise ValueError; payload := Ok (PDict []) |}.

Definition health_request : request :=
  {| command := lit "GET"; path := lit "/health?probe=1";
     content_length := Ok 0; payload := Raise JSONDecodeError |}.

Definition mixed_evaluator (text : pystr) : res pyval :=
  Ok (PDict [(lit "sentiment", PStr (lit "MIXED"));
             (lit "confidence", PFloat F64.f0_5)]).


(* ===================================================================== *)
(** * Strings: stripping, splitting and counting *)
(* ===================================================================== *)

Section StringFacts.

Lemma lstrip_nil_iff (s : pystr) :
  lstrip s = [] <-> forallb is_space s = true.
Proof.
  induction s as [|c s IH]; simpl; [tauto|].
  destruct (is_space c); simpl; [exact IH|].
  split; discriminate.
Qed.

Lemma lstrip_head (s : pystr) c t :
  lstrip s = c :: t -> is_space c = false.
Proof.
  induction s as [|a s IH]; simpl; [discriminate|].
  destruct (is_space a) eqn:Ea; [exact IH|].
  intros [= -> _]. exact Ea.
Qed.

Lemma forallb_rev_space (s : pystr) :
  forallb is_space (rev s) = forallb is_space s.
Proof.
  induction s as [|c s IH]; simpl; [reflexivity|].
  rewrite forallb_app, IH. simpl.
  rewrite andb_true_r. apply andb_comm.
Qed.

Lemma strip_nil_iff (s : pystr) :
  strip s = [] <-> forallb is_space s = true.
Proof.
  unfold strip, rstrip.
  rewrite <- (lstrip_nil_iff s).
  split.
  - intros E. apply (f_equal (@rev char)) in E.
    rewrite rev_involutive in E. simpl in E.
    apply lstrip_nil_iff in E. rewrite forallb_rev_space in E.
    destruct (lstrip s) as [|c t] eqn:El; [reflexivity|].
    apply lstrip_head in El. simpl in E. rewrite El in E. discriminate.
  - intros ->. reflexivity.
Qed.

(** The source's test [not text or not text.strip()] holds exactly of the
    strings made of whitespace only, the empty string among them. *)
Lemma is_empty_text_spec (text : pystr) :
  is_empty_text text = forallb is_space text.
Proof.
  unfold is_empty_text.
  destruct (forallb is_space text) eqn:E.
  - apply strip_nil_iff in E. rewrite E. apply orb_true_r.
  - destruct text as [|c t]; [discriminate|]. simpl.
    destruct (strip (c :: t)) eqn:Es; [|reflexivity].
    apply strip_nil_iff in Es. congruence.
Qed.

Lemma length_flush cur rest :
  List.length (flush cur rest)
  = ((if truthy cur then 1 else 0) + List.length rest)%nat.
Proof. destruct cur; reflexivity. Qed.

Lemma length_split_from (s cur : pystr) :
  List.length (split_from cur s)
  = ((if truthy cur then 1 else 0) + count_tokens_from (truthy cur) s)%nat.
Proof.
  revert cur. induction s as [|c s IH]; intros cur; simpl.
  - rewrite length_flush. reflexivity.
  - destruct (is_space c).
    + rewrite length_flush, (IH []). reflexivity.
    + rewrite (IH (c :: cur)). simpl. destruct cur; reflexivity.
Qed.

(** [len(s.split())] is the number of whitespace-delimited tokens. *)
Lemma length_split (s : pystr) :
  List.length (split s) = count_tokens s.
Proof. unfold split, count_tokens. rewrite length_split_from. reflexivity. Qed.

Lemma count_tokens_from_blank (s : pystr) b :
  forallb is_space s = true -> count_tokens_from b s = 0%nat.
Proof.
  revert b. induction s as [|c s IH]; intros b; simpl; [reflexivity|].
  destruct (is_space c); simpl; [intros E; exact (IH false E)|discriminate].
Qed.

(** A string of whitespace has no token. *)
Lemma split_blank (s : pystr) :
  forallb is_space s = true -> split s = [].
Proof.
  intros E. apply length_zero_iff_nil.
  rewrite length_split. exact (count_tokens_from_blank s false E).
Qed.

End StringFacts.

(** The ASCII lowercasing is one instance of the interface: it is Python's
    [str.lower] on every text made of ASCII characters. *)
Lemma is_space_ascii_lower_char (c : char) :
  is_space (ascii_lower_char c) = is_space c.
Proof.
  unfold ascii_lower_char.
  destruct ((65 <=? c) && (c <=? 90))%N eqn:E; [|reflexivity].
  apply andb_prop in E as [E1 E2].
  apply N.leb_le in E1. apply N.leb_le in E2.
  unfold is_space.
  repeat match goal with
         | |- context [(?a <=? ?b)%N] => destruct (N.leb_spec a b); try lia
         | |- context [(?a =? ?b)%N] => destruct (N.eqb_spec a b); try lia
         end; reflexivity.
Qed.

Lemma ascii_lower_blank (s : pystr) :
  forallb is_space (ascii_lower s) = forallb is_space s.
Proof.
  unfold ascii_lower. induction s as [|c s IH]; simpl; [reflexivity|].
  rewrite is_space_ascii_lower_char, IH. reflexivity.
Qed.

Definition ascii_str_lower : StrLower :=
  {| str_lower := ascii_lower; str_lower_blank := ascii_lower_blank |}.

(* ===================================================================== *)
(** * Counting lexicon hits *)
(* ===================================================================== *)

Section Counting.
Implicit Types (lexicon : gset pystr) (words : list pystr).

Lemma count_in_nil lexicon : count_in lexicon [] = 0.
Proof. reflexivity. Qed.

Lemma count_in_cons lexicon w words :
  count_in lexicon (w :: words)
  = (if decide (w ∈ lexicon) then 1 else 0) + count_in lexicon words.
Proof.
  unfold count_in, len. rewrite filter_cons.
  destruct (decide (w ∈ lexicon)); simpl length; lia.
Qed.

Lemma count_in_bounds lexicon words :
  0 <= count_in lexicon words <= len words.
Proof.
  induction words as [|w words IH]; [unfold count_in, len; simpl; lia|].
  rewrite count_in_cons. unfold len in *. simpl length.
  destruct (decide (w ∈ lexicon)); lia.
Qed.

(** No token is counted twice when the two lexicons share no word. *)
Lemma count_in_disjoint (pos neg : gset pystr) words :
  pos ## neg ->
  count_in pos words + count_in neg words <= len words.
Proof.
  intros D. induction words as [|w words IH]; [unfold count_in, len; simpl; lia|].
  rewrite !count_in_cons. unfold len in *. simpl length.
  destruct (decide (w ∈ pos)) as [Hp|Hp], (decide (w ∈ neg)) as [Hn|Hn]; try lia.
  exfalso. exact (D w Hp Hn).
Qed.

Lemma count_in_zero lexicon words :
  count_in lexicon words = 0 <-> (forall w, w ∈ words -> w ∉ lexicon).
Proof.
  induction words as [|w words IH].
  - split; [intros _ w Hw; inversion Hw|reflexivity].
  - rewrite count_in_cons. pose proof (count_in_bounds lexicon words) as B.
    destruct (decide (w ∈ lexicon)) as [Hw|Hw].
    + split; [lia|]. intros A. exfalso. apply (A w); [left|exact Hw].
    + split.
      * intros E w' Hw'. apply elem_of_cons in Hw' as [->|Hw']; [exact Hw|].
        apply IH; [lia|exact Hw'].
      * intros A. cut (count_in lexicon words = 0); [lia|].
        apply IH. intros w' Hw'. apply A. right. exact Hw'.
Qed.

Lemma count_in_pos lexicon words :
  0 < count_in lexicon words <-> (exists w, w ∈ words /\ w ∈ lexicon).
Proof.
  pose proof (count_in_bounds lexicon words) as B.
  split.
  - intros P. destruct (decide (Exists (fun w => w ∈ lexicon) words)) as [E|E].
    + apply Exists_exists in E as (w & Hw & HL). exists w. split; assumption.
    + exfalso. cut (count_in lexicon words = 0); [lia|].
      apply count_in_zero. intros w Hw HL. apply E.
      apply Exists_exists. exists w. split; assumption.
  - intros (w & Hw & HL).
    destruct (Z.eq_dec (count_in lexicon words) 0) as [E|E]; [|lia].
    exfalso. exact (proj1 (count_in_zero lexicon words) E w Hw HL).
Qed.

(** A counted hit is a token, so there is at least one word. *)
Lemma count_in_words lexicon words :
  0 < count_in lexicon words -> 0 < len words.
Proof. pose proof (count_in_bounds lexicon words). lia. Qed.

End Counting.

(** The two lexicons of each file share no word. *)
Lemma analyze_lexicons_disjoint :
  Analyze.positive_words ## Analyze.negative_words.
Proof.
  apply disjoint_intersection_L.
  apply (bool_decide_unpack _). vm_compute. exact I.
Qed.

Lemma app_lexicons_disjoint :
  App.positive_words ## App.negative_words.
Proof.
  apply disjoint_intersection_L.
  apply (bool_decide_unpack _). vm_compute. exact I.
Qed.

(* ===================================================================== *)
(** * Floats: rounding, and the range of the confidence *)
(* ===================================================================== *)

Section FloatFacts.

Lemma digits2_pos_bounds (p : positive) :
  2 ^ (Z.pos (digits2_pos p) - 1) <= Z.pos p < 2 ^ Z.pos (digits2_pos p).
Proof.
  induction p as [p IH|p IH|]; simpl digits2_pos.
  - rewrite Pos2Z.inj_succ.
    replace (Z.succ (Z.pos (digits2_pos p)) - 1) with (Z.succ (Z.pos (digits2_pos p) - 1)) by lia.
    rewrite !Z.pow_succ_r by lia. lia.
  - rewrite Pos2Z.inj_succ.
    replace (Z.succ (Z.pos (digits2_pos p)) - 1) with (Z.succ (Z.pos (digits2_pos p) - 1)) by lia.
    rewrite !Z.pow_succ_r by lia. lia.
  - simpl. lia.
Qed.

Lemma shr_1_m mrs :
  0 <= shr_m mrs -> shr_m (shr_1 mrs) = shr_m mrs / 2.
Proof.
  destruct mrs as [m r s]. simpl. intros Hm.
  destruct m as [|[p|p|]|p]; simpl; try lia; try reflexivity.
  - rewrite Pos2Z.inj_xI. apply Z.div_unique with 1; lia.
  - rewrite Pos2Z.inj_xO. apply Z.div_unique with 0; lia.
Qed.

Lemma iter_shr_1_m (p : positive) : forall mrs,
  0 <= shr_m mrs ->
  shr_m (SpecFloat.iter_pos shr_1 p mrs) = shr_m mrs / 2 ^ Z.pos p.
Proof.
  induction p as [p IH|p IH|]; intros mrs Hm; simpl SpecFloat.iter_pos.
  - assert (H1 : 0 <= shr_m (shr_1 mrs)) by (rewrite shr_1_m by lia; apply Z.div_pos; lia).
    assert (H2 : 0 <= shr_m (SpecFloat.iter_pos shr_1 p (shr_1 mrs)))
      by (rewrite IH by lia; apply Z.div_pos; [lia|apply Z.pow_pos_nonneg; lia]).
    rewrite IH, IH, shr_1_m by lia.
    rewrite !Z.div_div by (try apply Z.pow_pos_nonneg; lia).
    f_equal. rewrite Pos2Z.inj_xI.
    rewrite <- Z.pow_add_r by lia. rewrite <- (Z.pow_1_r 2) at 1.
    rewrite <- Z.pow_add_r by lia. f_equal. lia.
  - assert (H2 : 0 <= shr_m (SpecFloat.iter_pos shr_1 p mrs))
      by (rewrite IH by lia; apply Z.div_pos; [lia|apply Z.pow_pos_nonneg; lia]).
    rewrite IH, IH by lia.
    rewrite !Z.div_div by (try apply Z.pow_pos_nonneg; lia).
    f_equal. rewrite Pos2Z.inj_xO.
    rewrite <- Z.pow_add_r by lia. f_equal. lia.
  - rewrite shr_1_m by lia. reflexivity.
Qed.

Lemma shr_spec m r s e n :
  0 <= m -> 0 <= n ->
  let '(mrs, e') := shr (Build_shr_record m r s) e n in
  shr_m mrs = m / 2 ^ n /\ e' = e + n.
Proof.
  intros Hm Hn. unfold shr. destruct n as [|p|p]; try lia.
  - simpl. rewrite Z.div_1_r. lia.
  - split; [|reflexivity]. apply iter_shr_1_m. simpl. lia.
Qed.


Lemma pow2_lt_inv a b : 0 <= b -> 2 ^ a < 2 ^ b -> a < b.
Proof. intros Hb H. apply (Z.pow_lt_mono_r_iff 2); lia. Qed.

Lemma pow2_split a b : 0 <= a -> 0 <= b -> 2 ^ (a + b) = 2 ^ a * 2 ^ b.
Proof. intros. apply Z.pow_add_r; lia. Qed.

Lemma round_nearest_even_bounds m l :
  m <= round_nearest_even m l <= m + 1.
Proof.
  unfold round_nearest_even. destruct l as [|[| |]]; try lia.
  destruct (Z.even m); lia.
Qed.

Lemma digits_53 (m : positive) :
  2 ^ 52 <= Z.pos m < 2 ^ 53 -> Z.pos (digits2_pos m) = 53.
Proof.
  intros [Hlo Hhi]. pose proof (digits2_pos_bounds m) as [Dlo Dhi].
  assert (52 < Z.pos (digits2_pos m)) by (apply pow2_lt_inv; lia).
  assert (Z.pos (digits2_pos m) - 1 < 53) by (apply pow2_lt_inv; lia).
  lia.
Qed.

Lemma binary_round_at_least_0_3 (M : positive) (E : Z) :
  E <= -54 ->
  Z.pos m0_3 * 2 ^ (-54 - E) <= Z.pos M ->
  binary_round F64.prec F64.emax false M E = S754_infinity false
  \/ at_least_0_3 (binary_round F64.prec F64.emax false M E) = true.
Proof.
  intros HE HM.
  set (t := -54 - E) in *.
  set (d := Z.pos (digits2_pos M)).
  pose proof (digits2_pos_bounds M) as [Dlo Dhi]. fold d in Dlo, Dhi.
  assert (Ht : 0 <= t) by lia.
  assert (P52 : 2 ^ (52 + t) <= Z.pos M).
  { rewrite pow2_split by lia. unfold m0_3 in HM.
    assert (0 < 2 ^ t) by (apply Z.pow_pos_nonneg; lia). nia. }
  assert (Hd : 53 + t <= d).
  { assert (52 + t < d); [|lia]. apply pow2_lt_inv; [unfold d|]; lia. }
  unfold binary_round. fold d.
  assert (Hfexp : fexp F64.prec F64.emax (d + E) = d + E - 53).
  { unfold fexp, emin, F64.prec, F64.emax. lia. }
  rewrite Hfexp.
  assert (Hshl : shl_align M E (d + E - 53) = (M, E)).
  { unfold shl_align. destruct (d + E - 53 - E) eqn:Ez; try reflexivity. lia. }
  rewrite Hshl.
  unfold binary_round_aux, shr_fexp. simpl Zdigits2. fold d. rewrite Hfexp.
  simpl shr_record_of_loc.
  set (n := d + E - 53 - E).
  assert (Hn : n = d - 53) by (unfold n; lia).
  pose proof (shr_spec (Z.pos M) false false E n ltac:(lia) ltac:(lia)) as S1.
  destruct (shr {| shr_m := Z.pos M; shr_r := false; shr_s := false |} E n)
    as [mrs1 e1].
  destruct S1 as [Hm1 He1].
  assert (B1 : 2 ^ 52 <= shr_m mrs1 < 2 ^ 53).
  { rewrite Hm1. assert (0 < 2 ^ n) by (apply Z.pow_pos_nonneg; lia). split.
    - apply Z.div_le_lower_bound; [lia|].
      rewrite <- pow2_split by lia. replace (n + 52) with (d - 1) by lia. exact Dlo.
    - apply Z.div_lt_upper_bound; [lia|].
      rewrite <- pow2_split by lia. replace (n + 53) with d by lia. exact Dhi. }
  pose proof (round_nearest_even_bounds (shr_m mrs1) (loc_of_shr_record mrs1)) as R.
  set (m1 := round_nearest_even (shr_m mrs1) (loc_of_shr_record mrs1)) in *.
  assert (Hfloor : e1 = -54 -> Z.pos m0_3 <= shr_m mrs1).
  { intros Ee. rewrite Hm1. assert (n = t) by lia. subst n.
    apply Z.div_le_lower_bound; [apply Z.pow_pos_nonneg; lia|]. rewrite H. lia. }
  destruct m1 as [|p1|p1] eqn:Em1; try lia.
  simpl Zdigits2.
  set (d1 := Z.pos (digits2_pos p1)).
  pose proof (digits2_pos_bounds p1) as [D1lo D1hi]. fold d1 in D1lo, D1hi.
  assert (Hd1 : d1 = 53 \/ (d1 = 54 /\ Z.pos p1 = 2 ^ 53)).
  { assert (52 < d1) by (apply pow2_lt_inv; [unfold d1|]; lia).
    destruct (Z.eq_dec d1 53) as [|Hne]; [left; assumption|right].
    assert (d1 - 1 < 54).
    { apply pow2_lt_inv; [lia|]. change (2 ^ 54) with (2 * 2 ^ 53). lia. }
    assert (d1 = 54) by lia. split; [assumption|].
    replace (d1 - 1) with 53 in D1lo by lia. lia. }
  assert (Hfexp1 : fexp F64.prec F64.emax (d1 + e1) = d1 + e1 - 53).
  { unfold fexp, emin, F64.prec, F64.emax. lia. }
  rewrite Hfexp1.
  set (n1 := d1 + e1 - 53 - e1).
  pose proof (shr_spec (Z.pos p1) false false e1 n1 ltac:(lia) ltac:(unfold n1; lia)) as S2.
  destruct (shr {| shr_m := Z.pos p1; shr_r := false; shr_s := false |} e1 n1)
    as [mrs2 e2].
  destruct S2 as [Hm2 He2].
  assert (B2 : 2 ^ 52 <= shr_m mrs2 < 2 ^ 53 /\
               (e2 = -54 -> Z.pos m0_3 <= shr_m mrs2) /\ -54 <= e2).
  { destruct Hd1 as [Hd1|[Hd1 Hp1]].
    - assert (n1 = 0) by (unfold n1; lia).
      rewrite H in Hm2, He2. rewrite Z.pow_0_r, Z.div_1_r in Hm2.
      rewrite Hm2. repeat split; try lia.
      assert (Z.pos p1 <> 2 ^ 53); [|lia].
      intros Ep. rewrite Ep in D1hi. rewrite Hd1 in D1hi. lia.
    - assert (n1 = 1) by (unfold n1; lia).
      rewrite H in Hm2, He2. rewrite Hp1 in Hm2.
      change (2 ^ 53 / 2 ^ 1) with (2 ^ 52) in Hm2.
      rewrite Hm2. repeat split; lia. }
  destruct B2 as (B2 & F2 & L2).
  destruct (shr_m mrs2) as [|m2|m2] eqn:Em2; try lia.
  destruct (e2 <=? F64.emax - F64.prec); [right|left; reflexivity].
  unfold at_least_0_3. rewrite (digits_53 m2 B2). rewrite Z.eqb_refl. simpl andb.
  destruct (Z.ltb_spec (-54) e2) as [|Hle]; [reflexivity|].
  assert (Ee2 : e2 = -54) by lia. rewrite Ee2, Z.eqb_refl. simpl.
  apply Z.leb_le. apply F2. exact Ee2.
Qed.

Lemma pos_iter_xO (m : positive) (d : positive) :
  Z.pos (Pos.iter xO m d) = Z.pos m * 2 ^ Z.pos d.
Proof.
  induction d as [|d IH] using Pos.peano_ind.
  - simpl. lia.
  - rewrite Pos.iter_succ, Pos2Z.inj_xO, IH, Pos2Z.inj_succ, Z.pow_succ_r; lia.
Qed.

Lemma shl_align_fst (m : positive) (e e' : Z) :
  e' <= e -> Z.pos (fst (shl_align m e e')) = Z.pos m * 2 ^ (e - e').
Proof.
  intros H. unfold shl_align. destruct (e' - e) as [|p|p] eqn:Ed; simpl fst.
  - replace (e - e') with 0 by lia. lia.
  - lia.
  - rewrite pos_iter_xO. f_equal. f_equal. lia.
Qed.

Lemma binary_round_aux_signed sx mx ex lx :
  signed sx (binary_round_aux F64.prec F64.emax sx mx ex lx).
Proof.
  unfold binary_round_aux.
  destruct (shr_fexp F64.prec F64.emax mx ex lx) as [mrs' e'].
  destruct (shr_fexp _ _ _ e' loc_Exact) as [mrs'' e''].
  destruct (shr_m mrs''); [constructor| |constructor].
  destruct (e'' <=? F64.emax - F64.prec); constructor.
Qed.

(** The quotient of two positive integers is not negative. *)
Lemma div_exact_signed (a b : Z) :
  0 < a -> 0 < b -> signed false (F64.div (F64.exact a) (F64.exact b)).
Proof.
  intros Ha Hb. destruct a as [|a|a]; try lia. destruct b as [|b|b]; try lia.
  unfold F64.div, F64.exact, SFdiv.
  destruct (SFdiv_core_binary F64.prec F64.emax (Z.pos a) 0 (Z.pos b) 0) as [[mz ez] lz].
  apply binary_round_aux_signed.
Qed.

(** Adding 0.3 to a float that is not negative gives at least 0.3. *)
Lemma add_0_3 (q : spec_float) :
  signed false q ->
  F64.add q F64.f0_3 = S754_infinity false
  \/ F64.add q F64.f0_3 = S754_nan
  \/ at_least_0_3 (F64.add q F64.f0_3) = true.
Proof.
  intros [| | |m e].
  - right. right. reflexivity.
  - left. reflexivity.
  - right. left. reflexivity.
  - unfold F64.add, F64.f0_3, SFadd, cond_Zopp.
    set (ez := Z.min e (-54)).
    assert (H1 := shl_align_fst m e ez ltac:(lia)).
    assert (H2 := shl_align_fst 5404319552844595 (-54) ez ltac:(lia)).
    destruct (shl_align m e ez) as [m1 e1], (shl_align 5404319552844595 (-54) ez) as [m2 e2].
    simpl fst in *. simpl Z.add. unfold binary_normalize.
    destruct (binary_round_at_least_0_3 (m1 + m2) ez) as [Hr|Hr].
    + lia.
    + rewrite Pos2Z.inj_add, H2. unfold m0_3. lia.
    + left. exact Hr.
    + right. right. exact Hr.
Qed.

End FloatFacts.

Section Confidence.

Lemma round_half_even_bounds (n d lo hi : Z) :
  0 < d -> (2 * lo - 1) * d < 2 * n -> n < hi * d ->
  lo <= F64.round_half_even n d <= hi.
Proof.
  intros Hd Hlo Hhi. unfold F64.round_half_even.
  pose proof (Z.div_mod n d ltac:(lia)) as E.
  pose proof (Z.mod_pos_bound n d Hd) as B.
  set (q := n / d) in *. set (r := n mod d) in *.
  assert (q < hi) by nia.
  assert (lo - 1 <= q) by nia.
  destruct (Z.compare_spec (2 * r) d) as [C|C|C].
  - assert (lo <= q) by nia. destruct (Z.even q); lia.
  - assert (lo <= q) by nia. lia.
  - lia.
Qed.

Lemma thousandths_in_range (k : Z) :
  300 <= k <= 1000 ->
  from_0_3_to_1 (F64.div (F64.exact k) (F64.exact 1000)) = true.
Proof.
  intros Hk.
  assert (A : forallb thousandth_ok (List.map (fun i => 300 + Z.of_nat i) (seq 0 701)) = true)
    by (vm_compute; reflexivity).
  rewrite forallb_forall in A. apply (A k).
  apply in_map_iff. exists (Z.to_nat (k - 300)). split; [lia|].
  apply in_seq. lia.
Qed.

(** [round(x, ndigits)] on a positive double below 1. *)
Lemma py_round_small (m : positive) (e : Z) (ndigits : nat) :
  e < 0 ->
  F64.py_round (S754_finite false m e) ndigits
  = let k := F64.round_half_even (Z.pos m * 10 ^ Z.of_nat ndigits) (2 ^ (- e)) in
    if k =? 0 then S754_zero false
    else F64.div (F64.exact k) (F64.exact (10 ^ Z.of_nat ndigits)).
Proof.
  intros He. unfold F64.py_round.
  destruct (Z.leb_spec 0 e) as [H|H]; [lia|reflexivity].
Qed.

Lemma SFltb_finite_pos (m1 m2 : positive) (e1 e2 : Z) :
  SFltb (S754_finite false m1 e1) (S754_finite false m2 e2) = true ->
  e1 < e2 \/ (e1 = e2 /\ Z.pos m1 < Z.pos m2).
Proof.
  unfold SFltb, SFcompare. intros L.
  destruct (Z.compare_spec e1 e2) as [E|E|E]; try discriminate.
  - right. split; [exact E|].
    rewrite Pos.compare_cont_spec in L. unfold Pos.switch_Eq in L.
    destruct (Pos.compare_spec m1 m2) as [C|C|C]; try discriminate.
    apply Pos2Z.pos_lt_pos. exact C.
  - left. exact E.
Qed.

Lemma py_round_3_in_range (m : positive) (e : Z) :
  at_least_0_3 (S754_finite false m e) = true ->
  F64.ltb (S754_finite false m e) F64.f1_0 = true ->
  from_0_3_to_1 (F64.py_round (S754_finite false m e) 3) = true.
Proof.
  intros A L. unfold at_least_0_3 in A.
  apply andb_prop in A as [D A]. apply Z.eqb_eq in D.
  pose proof (digits2_pos_bounds m) as [Dlo Dhi]. rewrite D in Dlo, Dhi.
  assert (P52 : 2 ^ (53 - 1) = 4503599627370496) by reflexivity.
  assert (P53 : 2 ^ 53 = 9007199254740992) by reflexivity.
  rewrite P52 in Dlo. rewrite P53 in Dhi.
  assert (He : e = -53 \/ (e = -54 /\ Z.pos m0_3 <= Z.pos m)).
  { apply SFltb_finite_pos in L.
    apply orb_prop in A as [A|A].
    - apply Z.ltb_lt in A. left. lia.
    - apply andb_prop in A as [A1 A2]. apply Z.eqb_eq in A1. apply Z.leb_le in A2.
      right. split; assumption. }
  assert (P1000 : 10 ^ Z.of_nat 3 = 1000) by reflexivity.
  assert (Q53 : 2 ^ (- (-53)) = 9007199254740992) by reflexivity.
  assert (Q54 : 2 ^ (- (-54)) = 18014398509481984) by reflexivity.
  assert (M03 : Z.pos m0_3 = 5404319552844595) by reflexivity.
  destruct He as [He|[He Hm]]; rewrite He; rewrite py_round_small by lia;
    rewrite P1000; cbv zeta.
  - rewrite Q53.
    pose proof (round_half_even_bounds (Z.pos m * 1000) 9007199254740992 300 1000
                  ltac:(lia) ltac:(lia) ltac:(lia)) as B.
    destruct (Z.eqb_spec (F64.round_half_even (Z.pos m * 1000) 9007199254740992) 0) as [Z0|_];
      [lia|].
    exact (thousandths_in_range _ B).
  - rewrite Q54. rewrite M03 in Hm.
    pose proof (round_half_even_bounds (Z.pos m * 1000) 18014398509481984 300 1000
                  ltac:(lia) ltac:(lia) ltac:(lia)) as B.
    destruct (Z.eqb_spec (F64.round_half_even (Z.pos m * 1000) 18014398509481984) 0) as [Z0|_];
      [lia|].
    exact (thousandths_in_range _ B).
Qed.

(** With at least one hit among at least one word, the confidence is a
    double between 0.3 and 1.0. *)
Lemma confidence_of_in_range (total word_count : Z) :
  0 < total -> 0 < word_count ->
  from_0_3_to_1 (confidence_of total word_count) = true.
Proof.
  intros Ht Hw. unfold confidence_of.
  pose proof (div_exact_signed total (Z.max 1 word_count) Ht ltac:(lia)) as Q.
  destruct (add_0_3 _ Q) as [E|[E|E]].
  - rewrite E. vm_compute. reflexivity.
  - rewrite E. vm_compute. reflexivity.
  - destruct (F64.add _ F64.f0_3) as [| | |[|] m e]; try discriminate E.
    unfold F64.py_min.
    destruct (F64.ltb (S754_finite false m e) F64.f1_0) eqn:L.
    + apply py_round_3_in_range; assumption.
    + vm_compute. reflexivity.
Qed.

(** Rounding to three places leaves a whole number of thousandths. *)
Lemma py_round_3_thousandths (m : positive) (e : Z) :
  at_least_0_3 (S754_finite false m e) = true ->
  F64.ltb (S754_finite false m e) F64.f1_0 = true ->
  exists k, 300 <= k <= 1000 /\ F64.py_round (S754_finite false m e) 3 = thousandths k.
Proof.
  intros A L. unfold at_least_0_3 in A.
  apply andb_prop in A as [D A]. apply Z.eqb_eq in D.
  pose proof (digits2_pos_bounds m) as [Dlo Dhi]. rewrite D in Dlo, Dhi.
  assert (P52 : 2 ^ (53 - 1) = 4503599627370496) by reflexivity.
  assert (P53 : 2 ^ 53 = 9007199254740992) by reflexivity.
  rewrite P52 in Dlo. rewrite P53 in Dhi.
  assert (He : e = -53 \/ (e = -54 /\ Z.pos m0_3 <= Z.pos m)).
  { apply SFltb_finite_pos in L.
    apply orb_prop in A as [A|A].
    - apply Z.ltb_lt in A. left. lia.
    - apply andb_prop in A as [A1 A2]. apply Z.eqb_eq in A1. apply Z.leb_le in A2.
      right. split; assumption. }
  assert (P1000 : 10 ^ Z.of_nat 3 = 1000) by reflexivity.
  assert (Q53 : 2 ^ (- (-53)) = 9007199254740992) by reflexivity.
  assert (Q54 : 2 ^ (- (-54)) = 18014398509481984) by reflexivity.
  assert (M03 : Z.pos m0_3 = 5404319552844595) by reflexivity.
  destruct He as [He|[He Hm]]; rewrite He; rewrite py_round_small by lia;
    rewrite P1000; cbv zeta.
  - rewrite Q53.
    pose proof (round_half_even_bounds (Z.pos m * 1000) 9007199254740992 300 1000
                  ltac:(lia) ltac:(lia) ltac:(lia)) as B.
    destruct (Z.eqb_spec (F64.round_half_even (Z.pos m * 1000) 9007199254740992) 0) as [Z0|_];
      [lia|].
    eexists. split; [exact B|reflexivity].
  - rewrite Q54. rewrite M03 in Hm.
    pose proof (round_half_even_bounds (Z.pos m * 1000) 18014398509481984 300 1000
                  ltac:(lia) ltac:(lia) ltac:(lia)) as B.
    destruct (Z.eqb_spec (F64.round_half_even (Z.pos m * 1000) 18014398509481984) 0) as [Z0|_];
      [lia|].
    eexists. split; [exact B|reflexivity].
Qed.

Lemma confidence_of_thousandths (total word_count : Z) :
  0 < total -> 0 < word_count ->
  exists k, 300 <= k <= 1000 /\ confidence_of total word_count = thousandths k.
Proof.
  intros Ht Hw. unfold confidence_of.
  pose proof (div_exact_signed total (Z.max 1 word_count) Ht ltac:(lia)) as Q.
  destruct (add_0_3 _ Q) as [E|[E|E]].
  - rewrite E. exists 1000. split; [lia|]. vm_compute. reflexivity.
  - rewrite E. exists 1000. split; [lia|]. vm_compute. reflexivity.
  - destruct (F64.add _ F64.f0_3) as [| | |[|] m e]; try discriminate E.
    unfold F64.py_min.
    destruct (F64.ltb (S754_finite false m e) F64.f1_0) eqn:L.
    + apply py_round_3_thousandths; assumption.
    + exists 1000. split; [lia|]. vm_compute. reflexivity.
Qed.

End Confidence.

(* ===================================================================== *)
(** * The three branches of the two scorers *)
(* ===================================================================== *)

Section Branches.
Context `{StrLower}.
Implicit Types (pos neg : gset pystr) (words : list pystr) (now text : pystr).

Lemma matches_count pos neg words :
  matches pos neg words <-> 0 < count_in pos words + count_in neg words.
Proof.
  pose proof (count_in_bounds pos words) as Bp.
  pose proof (count_in_bounds neg words) as Bn.
  unfold matches. rewrite Exists_exists. split.
  - intros (w & Hw & [Hp|Hn]).
    + assert (0 < count_in pos words) by (apply count_in_pos; eauto). lia.
    + assert (0 < count_in neg words) by (apply count_in_pos; eauto). lia.
  - intros P.
    destruct (Z.eq_dec (count_in pos words) 0) as [Ep|Ep].
    + assert (Hn : 0 < count_in neg words) by lia.
      apply count_in_pos in Hn as (w & Hw & HL). eauto.
    + assert (Hp : 0 < count_in pos words) by lia.
      apply count_in_pos in Hp as (w & Hw & HL). eauto.
Qed.

Lemma matches_nothing_count pos neg words :
  matches_nothing pos neg words <-> count_in pos words + count_in neg words = 0.
Proof.
  pose proof (count_in_bounds pos words) as Bp.
  pose proof (count_in_bounds neg words) as Bn.
  unfold matches_nothing. rewrite Forall_forall. split.
  - intros A.
    assert (count_in pos words = 0) by (apply count_in_zero; intros w Hw; apply (A w Hw)).
    assert (count_in neg words = 0) by (apply count_in_zero; intros w Hw; apply (A w Hw)).
    lia.
  - intros E w Hw. split; apply (count_in_zero _ words); trivial; lia.
Qed.

(** A text of whitespace has no word, so a text with a match is not one. *)
Lemma blank_no_words text :
  forallb is_space text = true -> split (str_lower text) = [].
Proof. intros E. apply split_blank. rewrite str_lower_blank. exact E. Qed.

Lemma matches_not_blank pos neg text :
  matches pos neg (split (str_lower text)) -> forallb is_space text = false.
Proof.
  intros M. destruct (forallb is_space text) eqn:E; [|reflexivity].
  rewrite (blank_no_words text E) in M. inversion M.
Qed.

Lemma int_true_div_ok (a b : Z) :
  b <> 0 -> F64.int_true_div a b = Ok (F64.div (F64.exact a) (F64.exact b)).
Proof.
  intros Hb. unfold F64.int_true_div.
  destruct (Z.eqb_spec b 0); [contradiction|reflexivity].
Qed.

(** [analyze.py]: the early return on an empty text, the early return when
    no word is in a lexicon, and the scored branch. *)
Lemma analyze_blank now text :
  forallb is_space text = true ->
  Analyze.analyze now text
  = Ok (PDict [(lit "sentiment", PStr (lit "neutral"));
               (lit "confidence", PFloat F64.f0_0);
               (lit "message", PStr (lit "Empty text"));
               (lit "emoji", PStr emoji_neutral)]).
Proof.
  intros E. unfold Analyze.analyze. rewrite is_empty_text_spec, E. reflexivity.
Qed.

Lemma analyze_no_match now text :
  forallb is_space text = false ->
  matches_nothing Analyze.positive_words Analyze.negative_words (split (str_lower text)) ->
  Analyze.analyze now text
  = Ok (PDict [(lit "sentiment", PStr (lit "neutral"));
               (lit "confidence", PFloat F64.f0_5);
               (lit "message", PStr (lit "Neutral sentiment detected"));
               (lit "emoji", PStr emoji_neutral)]).
Proof.
  intros E M. apply matches_nothing_count in M.
  unfold Analyze.analyze. rewrite is_empty_text_spec, E. cbv zeta.
  rewrite M. reflexivity.
Qed.

Lemma analyze_scored now text :
  let words := split (str_lower text) in
  let positive_count := count_in Analyze.positive_words words in
  let negative_count := count_in Analyze.negative_words words in
  matches Analyze.positive_words Analyze.negative_words words ->
  Analyze.analyze now text
  = let '(sentiment, message, emoji) :=
      classify (score_of positive_count negative_count (len words)) in
    Ok (PDict [(lit "sentiment", PStr sentiment);
               (lit "confidence",
                 PFloat (confidence_of (positive_count + negative_count) (len words)));
               (lit "message", PStr message);
               (lit "emoji", PStr emoji);
               (lit "metadata",
                 PDict [(lit "text_length", PInt (len text));
                        (lit "word_count", PInt (len words));
                        (lit "positive_words", PInt positive_count);
                        (lit "negative_words", PInt negative_count);
                        (lit "timestamp", PStr now)])]).
Proof.
  intros words positive_count negative_count M.
  pose proof (matches_not_blank _ _ _ M) as E.
  apply matches_count in M. fold positive_count negative_count in M.
  assert (W : 0 < len words).
  { pose proof (count_in_disjoint _ _ words analyze_lexicons_disjoint) as D.
    fold positive_count negative_count in D. lia. }
  unfold Analyze.analyze. rewrite is_empty_text_spec, E. cbv zeta.
  fold words. fold positive_count negative_count.
  destruct (Z.eqb_spec (positive_count + negative_count) 0) as [Z0|_]; [lia|].
  rewrite !int_true_div_ok by lia.
  reflexivity.
Qed.

(** [app.py]: the same three branches of [analyze_text]. *)
Lemma analyze_text_blank now text :
  forallb is_space text = true ->
  App.analyze_text now text
  = Ok (PDict [(lit "sentiment", PStr (lit "neutral"));
               (lit "confidence", PFloat F64.f0_0);
               (lit "message", PStr (lit "Empty text provided"));
               (lit "emoji", PStr emoji_neutral)]).
Proof.
  intros E. unfold App.analyze_text. rewrite is_empty_text_spec, E. reflexivity.
Qed.

Lemma analyze_text_no_match now text :
  forallb is_space text = false ->
  matches_nothing App.positive_words App.negative_words (split (str_lower text)) ->
  App.analyze_text now text
  = Ok (PDict [(lit "sentiment", PStr (lit "neutral"));
               (lit "confidence", PFloat F64.f0_5);
               (lit "message", PStr (lit "Neutral sentiment detected"));
               (lit "emoji", PStr emoji_neutral)]).
Proof.
  intros E M. apply matches_nothing_count in M.
  unfold App.analyze_text. rewrite is_empty_text_spec, E. cbv zeta.
  rewrite M. reflexivity.
Qed.

Lemma analyze_text_scored now text :
  let words := split (str_lower text) in
  let positive_count := count_in App.positive_words words in
  let negative_count := count_in App.negative_words words in
  let confidence :=
    F64.py_min F64.f1_0
      (F64.add (F64.div (F64.exact (positive_count + negative_count))
                        (F64.exact (Z.max 1 (len words))))
               F64.f0_3) in
  matches App.positive_words App.negative_words words ->
  App.analyze_text now text
  = let '(sentiment, message, emoji) :=
      classify (score_of positive_count negative_count (len words)) in
    Ok (PDict [(lit "sentiment", PStr sentiment);
               (lit "confidence",
                 PFloat (confidence_of (positive_count + negative_count) (len words)));
               (lit "message", PStr message);
               (lit "emoji", PStr emoji);
               (lit "scores",
                 PDict [(lit "confidence",
                          PFloat (confidence_of (positive_count + negative_count) (len words)));
                        (lit "confidence_percentage", PFloat (App.percentage confidence))]);
               (lit "metadata",
                 PDict [(lit "text_length", PInt (len text));
                        (lit "word_count", PInt (len words));
                        (lit "analysis_timestamp", PStr now);
                        (lit "api_version", PStr (lit "1.0"));
                        (lit "method", PStr (lit "SimpleFallback"))])]).
Proof.
  intros words positive_count negative_count confidence M.
  pose proof (matches_not_blank _ _ _ M) as E.
  apply matches_count in M. fold positive_count negative_count in M.
  assert (W : 0 < len words).
  { pose proof (count_in_disjoint _ _ words app_lexicons_disjoint) as D.
    fold positive_count negative_count in D. lia. }
  unfold App.analyze_text. rewrite is_empty_text_spec, E. cbv zeta.
  fold words. fold positive_count negative_count.
  destruct (Z.eqb_spec (positive_count + negative_count) 0) as [Z0|_]; [lia|].
  rewrite !int_true_div_ok by lia.
  reflexivity.
Qed.

(** A text is empty, or has no word of a lexicon, or has one. *)
Lemma three_branches pos neg text :
  forallb is_space text = true
  \/ (forallb is_space text = false
      /\ matches_nothing pos neg (split (str_lower text)))
  \/ matches pos neg (split (str_lower text)).
Proof.
  destruct (forallb is_space text) eqn:E; [left; reflexivity|right].
  pose proof (count_in_bounds pos (split (str_lower text))).
  pose proof (count_in_bounds neg (split (str_lower text))).
  destruct (Z.eq_dec (count_in pos (split (str_lower text))
                      + count_in neg (split (str_lower text))) 0) as [Z0|NZ].
  - left. split; [reflexivity|]. apply matches_nothing_count. exact Z0.
  - right. apply matches_count. lia.
Qed.

Lemma matches_exclusive pos neg words :
  matches pos neg words -> matches_nothing pos neg words -> False.
Proof.
  intros M N. apply matches_count in M. apply matches_nothing_count in N. lia.
Qed.

End Branches.

(** Looking a key up in a literal dict. *)
Lemma dget_here k v d : dget k ((k, v) :: d) = Some v.
Proof.
  simpl. unfold str_eqb. rewrite bool_decide_eq_true_2 by reflexivity. reflexivity.
Qed.

Lemma dget_skip k k' v d :
  str_eqb k k' = false -> dget k ((k', v) :: d) = dget k d.
Proof. intros E. simpl. rewrite E. reflexivity. Qed.

Lemma dget_nil k : dget k [] = None.
Proof. reflexivity. Qed.

Ltac lookup :=
  unfold verdict_of, metadata_field, field;
  repeat first [ rewrite dget_here
               | rewrite dget_skip by (vm_compute; reflexivity)
               | rewrite dget_nil ].

(* ===================================================================== *)
(** * The verdict and its thresholds *)
(* ===================================================================== *)

(** The comparisons of the two boundary scores with the thresholds. *)
Lemma boundary_scores_neutral (score : spec_float) :
  score = F64.f0_05 \/ score = F64.neg F64.f0_05 ->
  F64.ltb F64.f0_05 score = false /\ F64.ltb score (F64.neg F64.f0_05) = false.
Proof. intros [->| ->]; split; vm_compute; reflexivity. Qed.

Lemma classify_thresholds (score : spec_float) :
  classify score
  = if F64.ltb F64.f0_05 score then verdict_positive
    else if F64.ltb score (F64.neg F64.f0_05) then verdict_negative
    else verdict_neutral.
Proof. reflexivity. Qed.

Section Verdicts.
Context `{StrLower}.
Implicit Types (now text : pystr).

Lemma verdict_of_analyze_scored now text :
  let words := split (str_lower text) in
  matches Analyze.positive_words Analyze.negative_words words ->
  verdict_of (Analyze.analyze now text)
  = Some (classify (score_of (count_in Analyze.positive_words words)
                             (count_in Analyze.negative_words words) (len words))).
Proof.
  intros words M. rewrite (analyze_scored now text M). fold words.
  destruct (classify _) as [[sentiment message] emoji]. lookup. reflexivity.
Qed.

Lemma verdict_of_analyze_text_scored now text :
  let words := split (str_lower text) in
  matches App.positive_words App.negative_words words ->
  verdict_of (App.analyze_text now text)
  = Some (classify (score_of (count_in App.positive_words words)
                             (count_in App.negative_words words) (len words))).
Proof.
  intros words M. rewrite (analyze_text_scored now text M). fold words.
  destruct (classify _) as [[sentiment message] emoji]. lookup. reflexivity.
Qed.

(** C1: on a text with at least one token in a lexicon, the verdict of
    both scorers is decided by the score
    [(positive_count - negative_count) / len(words)] with strict
    thresholds: above 0.05 positive, below -0.05 negative, neutral
    otherwise, each with its message and emoji; a score that is 0.05 or
    -0.05 itself is neutral. *)
Theorem verdict_by_strict_thresholds now text :
  let words := split (str_lower text) in
  (matches Analyze.positive_words Analyze.negative_words words ->
   let score := score_of (count_in Analyze.positive_words words)
                         (count_in Analyze.negative_words words) (len words) in
   verdict_of (Analyze.analyze now text)
   = Some (if F64.ltb F64.f0_05 score then verdict_positive
           else if F64.ltb score (F64.neg F64.f0_05) then verdict_negative
           else verdict_neutral)
   /\ (score = F64.f0_05 \/ score = F64.neg F64.f0_05 ->
       verdict_of (Analyze.analyze now text) = Some verdict_neutral))
  /\
  (matches App.positive_words App.negative_words words ->
   let score := score_of (count_in App.positive_words words)
                         (count_in App.negative_words words) (len words) in
   verdict_of (App.analyze_text now text)
   = Some (if F64.ltb F64.f0_05 score then verdict_positive
           else if F64.ltb score (F64.neg F64.f0_05) then verdict_negative
           else verdict_neutral)
   /\ (score = F64.f0_05 \/ score = F64.neg F64.f0_05 ->
       verdict_of (App.analyze_text now text) = Some verdict_neutral)).
Proof.
  intros words. split; intros M score.
  - rewrite (verdict_of_analyze_scored now text M). fold words score.
    rewrite classify_thresholds. split; [reflexivity|].
    intros B. apply boundary_scores_neutral in B as [-> ->]. reflexivity.
  - rewrite (verdict_of_analyze_text_scored now text M). fold words score.
    rewrite classify_thresholds. split; [reflexivity|].
    intros B. apply boundary_scores_neutral in B as [-> ->]. reflexivity.
Qed.

(** C3: a text that is not empty or all whitespace and none of whose
    lowercased tokens is in a lexicon gets sentiment "neutral", confidence
    0.5 and the message "Neutral sentiment detected", from both scorers. *)
Theorem no_match_is_neutral_half now text :
  forallb is_space text = false ->
  let words := split (str_lower text) in
  (matches_nothing Analyze.positive_words Analyze.negative_words words ->
   field "sentiment" (Analyze.analyze now text) = Some (PStr (lit "neutral"))
   /\ field "confidence" (Analyze.analyze now text) = Some (PFloat F64.f0_5)
   /\ field "message" (Analyze.analyze now text)
      = Some (PStr (lit "Neutral sentiment detected")))
  /\
  (matches_nothing App.positive_words App.negative_words words ->
   field "sentiment" (App.analyze_text now text) = Some (PStr (lit "neutral"))
   /\ field "confidence" (App.analyze_text now text) = Some (PFloat F64.f0_5)
   /\ field "message" (App.analyze_text now text)
      = Some (PStr (lit "Neutral sentiment detected"))).
Proof.
  intros E words. split; intros M.
  - rewrite (analyze_no_match now text E M). repeat split; lookup; reflexivity.
  - rewrite (analyze_text_no_match now text E M). repeat split; lookup; reflexivity.
Qed.

(** C4: the empty string and every string of whitespace get sentiment
    "neutral", confidence 0.0, the neutral emoji and a message that starts
    with "Empty text" ("Empty text" in analyze.py, "Empty text provided" in
    app.py). *)
Theorem blank_is_neutral_zero now text :
  forallb is_space text = true ->
  (field "sentiment" (Analyze.analyze now text) = Some (PStr (lit "neutral"))
   /\ field "confidence" (Analyze.analyze now text) = Some (PFloat F64.f0_0)
   /\ field "emoji" (Analyze.analyze now text) = Some (PStr emoji_neutral)
   /\ field "message" (Analyze.analyze now text) = Some (PStr (lit "Empty text")))
  /\
  (field "sentiment" (App.analyze_text now text) = Some (PStr (lit "neutral"))
   /\ field "confidence" (App.analyze_text now text) = Some (PFloat F64.f0_0)
   /\ field "emoji" (App.analyze_text now text) = Some (PStr emoji_neutral)
   /\ field "message" (App.analyze_text now text)
      = Some (PStr (lit "Empty text provided"))).
Proof.
  intros E. split.
  - rewrite (analyze_blank now text E). repeat split; lookup; reflexivity.
  - rewrite (analyze_text_blank now text E). repeat split; lookup; reflexivity.
Qed.

End Verdicts.

Lemma verdict_by_strict_thresholds_witness :
  (verdict_of (Analyze.analyze (H := ascii_str_lower) sample_now boundary_text)
   = Some verdict_neutral
   /\ verdict_of (Analyze.analyze (H := ascii_str_lower) sample_now hit_text)
      = Some verdict_positive
   /\ verdict_of (Analyze.analyze (H := ascii_str_lower) sample_now gloomy_text)
      = Some verdict_negative)
  /\ (verdict_of (App.analyze_text (H := ascii_str_lower) sample_now boundary_text)
      = Some verdict_neutral
      /\ verdict_of (App.analyze_text (H := ascii_str_lower) sample_now hit_text)
         = Some verdict_positive
      /\ verdict_of (App.analyze_text (H := ascii_str_lower) sample_now gloomy_text)
         = Some verdict_negative).
Proof.
  pose proof (verdict_by_strict_thresholds (H := ascii_str_lower) sample_now boundary_text)
    as [A B].
  pose proof (verdict_by_strict_thresholds (H := ascii_str_lower) sample_now hit_text)
    as [Ap Bp].
  pose proof (verdict_by_strict_thresholds (H := ascii_str_lower) sample_now gloomy_text)
    as [An Bn].
  split; split; [| split | | split].
  - apply A; [apply (bool_decide_unpack _); vm_compute; exact I|].
    left. vm_compute. reflexivity.
  - destruct Ap as [Ap _]; [apply (bool_decide_unpack _); vm_compute; exact I|].
    rewrite Ap. vm_compute. reflexivity.
  - destruct An as [An _]; [apply (bool_decide_unpack _); vm_compute; exact I|].
    rewrite An. vm_compute. reflexivity.
  - apply B; [apply (bool_decide_unpack _); vm_compute; exact I|].
    left. vm_compute. reflexivity.
  - destruct Bp as [Bp _]; [apply (bool_decide_unpack _); vm_compute; exact I|].
    rewrite Bp. vm_compute. reflexivity.
  - destruct Bn as [Bn _]; [apply (bool_decide_unpack _); vm_compute; exact I|].
    rewrite Bn. vm_compute. reflexivity.
Defined.

Lemma no_match_is_neutral_half_witness :
  field "confidence" (Analyze.analyze (H := ascii_str_lower) sample_now plain_text)
  = Some (PFloat F64.f0_5)
  /\ field "confidence" (App.analyze_text (H := ascii_str_lower) sample_now plain_text)
     = Some (PFloat F64.f0_5).
Proof.
  pose proof (no_match_is_neutral_half (H := ascii_str_lower) sample_now plain_text
                ltac:(vm_compute; reflexivity)) as [A B].
  split.
  - apply A. apply (bool_decide_unpack _). vm_compute. exact I.
  - apply B. apply (bool_decide_unpack _). vm_compute. exact I.
Defined.

Lemma blank_is_neutral_zero_witness :
  field "confidence" (Analyze.analyze (H := ascii_str_lower) sample_now blank_text)
  = Some (PFloat F64.f0_0)
  /\ field "message" (App.analyze_text (H := ascii_str_lower) sample_now blank_text)
     = Some (PStr (lit "Empty text provided")).
Proof.
  pose proof (blank_is_neutral_zero (H := ascii_str_lower) sample_now blank_text
                ltac:(vm_compute; reflexivity)) as [A B].
  split; [apply A|apply B].
Defined.

(* ===================================================================== *)
(** * The confidence *)
(* ===================================================================== *)

(** Comparing the other way round gives the opposite answer. *)
Lemma SFcompare_antisym (x y : spec_float) :
  SFcompare y x = option_map CompOpp (SFcompare x y).
Proof.
  destruct x as [sx|sx| |sx mx ex], y as [sy|sy| |sy my ey]; simpl;
    try destruct sx; try destruct sy; try reflexivity.
  - rewrite (Z.compare_antisym ey ex). destruct (ey ?= ex); simpl; try reflexivity.
    rewrite (Pos.compare_cont_antisym mx my Eq). reflexivity.
  - rewrite (Z.compare_antisym ey ex). destruct (ey ?= ex); simpl; try reflexivity.
    rewrite (Pos.compare_cont_antisym mx my Eq). reflexivity.
Qed.

Lemma leb_not_ltb (x y : spec_float) :
  F64.leb x y = true -> F64.ltb y x = false.
Proof.
  unfold F64.leb, F64.ltb, SFleb, SFltb. rewrite (SFcompare_antisym x y).
  destruct (SFcompare x y) as [[| |]|]; simpl; congruence.
Qed.

Lemma at_least_0_3_nonneg (c : spec_float) :
  F64.leb F64.f0_3 c = true -> F64.leb F64.f0_0 c = true.
Proof.
  destruct c as [s|[|]| |[|] m e]; intros E;
    try reflexivity; vm_compute in E; discriminate E.
Qed.

Section ConfidenceOfResults.
Context `{StrLower}.
Implicit Types (now text : pystr).

Lemma confidence_of_analyze_scored now text :
  let words := split (str_lower text) in
  matches Analyze.positive_words Analyze.negative_words words ->
  field "confidence" (Analyze.analyze now text)
  = Some (PFloat (confidence_of (count_in Analyze.positive_words words
                                 + count_in Analyze.negative_words words) (len words))).
Proof.
  intros words M. rewrite (analyze_scored now text M). fold words.
  destruct (classify _) as [[sentiment message] emoji]. lookup. reflexivity.
Qed.

Lemma confidence_of_analyze_text_scored now text :
  let words := split (str_lower text) in
  matches App.positive_words App.negative_words words ->
  field "confidence" (App.analyze_text now text)
  = Some (PFloat (confidence_of (count_in App.positive_words words
                                 + count_in App.negative_words words) (len words))).
Proof.
  intros words M. rewrite (analyze_text_scored now text M). fold words.
  destruct (classify _) as [[sentiment message] emoji]. lookup. reflexivity.
Qed.

(** With a match, the confidence is a double from 0.3 to 1.0. *)
Lemma matched_confidence_in_range (pos neg : gset pystr) (words : list pystr) :
  pos ## neg -> matches pos neg words ->
  from_0_3_to_1 (confidence_of (count_in pos words + count_in neg words) (len words))
  = true.
Proof.
  intros D M. apply matches_count in M.
  pose proof (count_in_disjoint pos neg words D).
  apply confidence_of_in_range; lia.
Qed.

Lemma matched_confidence_thousandths (pos neg : gset pystr) (words : list pystr) :
  pos ## neg -> matches pos neg words ->
  exists k, 300 <= k <= 1000
    /\ confidence_of (count_in pos words + count_in neg words) (len words)
       = thousandths k.
Proof.
  intros D M. apply matches_count in M.
  pose proof (count_in_disjoint pos neg words D).
  apply confidence_of_thousandths; lia.
Qed.

(** C2: the confidence that both scorers return is a double in [0, 1]
    for every text; when a token is in a lexicon it is
    [round(min(1.0, total_sentiment_words / max(1, len(words)) + 0.3), 3)],
    which is a whole number of thousandths from 0.300 to 1.000. *)
Theorem confidence_in_unit_interval now text :
  let words := split (str_lower text) in
  (exists c,
     field "confidence" (Analyze.analyze now text) = Some (PFloat c)
     /\ F64.leb F64.f0_0 c = true /\ F64.leb c F64.f1_0 = true
     /\ (matches Analyze.positive_words Analyze.negative_words words ->
         c = F64.py_round
               (F64.py_min F64.f1_0
                  (F64.add
                     (F64.div
                        (F64.exact (count_in Analyze.positive_words words
                                    + count_in Analyze.negative_words words))
                        (F64.exact (Z.max 1 (len words))))
                     F64.f0_3))
               3
         /\ exists k, 300 <= k <= 1000 /\ c = thousandths k))
  /\
  (exists c,
     field "confidence" (App.analyze_text now text) = Some (PFloat c)
     /\ F64.leb F64.f0_0 c = true /\ F64.leb c F64.f1_0 = true
     /\ (matches App.positive_words App.negative_words words ->
         c = F64.py_round
               (F64.py_min F64.f1_0
                  (F64.add
                     (F64.div
                        (F64.exact (count_in App.positive_words words
                                    + count_in App.negative_words words))
                        (F64.exact (Z.max 1 (len words))))
                     F64.f0_3))
               3
         /\ exists k, 300 <= k <= 1000 /\ c = thousandths k)).
Proof.
  intros words. split.
  - destruct (three_branches Analyze.positive_words Analyze.negative_words text)
      as [E|[[E N]|M]].
    + exists F64.f0_0. rewrite (analyze_blank now text E).
      split; [lookup; reflexivity|]. split; [reflexivity|]. split; [reflexivity|].
      intros M. apply matches_not_blank in M. congruence.
    + exists F64.f0_5. rewrite (analyze_no_match now text E N).
      split; [lookup; reflexivity|]. split; [reflexivity|]. split; [reflexivity|].
      intros M. destruct (matches_exclusive _ _ _ M N).
    + eexists. split; [exact (confidence_of_analyze_scored now text M)|].
      pose proof (matched_confidence_in_range _ _ _ analyze_lexicons_disjoint M) as R.
      apply andb_prop in R as [R1 R2].
      split; [exact (at_least_0_3_nonneg _ R1)|]. split; [exact R2|].
      intros _. split; [reflexivity|].
      exact (matched_confidence_thousandths _ _ _ analyze_lexicons_disjoint M).
  - destruct (three_branches App.positive_words App.negative_words text)
      as [E|[[E N]|M]].
    + exists F64.f0_0. rewrite (analyze_text_blank now text E).
      split; [lookup; reflexivity|]. split; [reflexivity|]. split; [reflexivity|].
      intros M. apply matches_not_blank in M. congruence.
    + exists F64.f0_5. rewrite (analyze_text_no_match now text E N).
      split; [lookup; reflexivity|]. split; [reflexivity|]. split; [reflexivity|].
      intros M. destruct (matches_exclusive _ _ _ M N).
    + eexists. split; [exact (confidence_of_analyze_text_scored now text M)|].
      pose proof (matched_confidence_in_range _ _ _ app_lexicons_disjoint M) as R.
      apply andb_prop in R as [R1 R2].
      split; [exact (at_least_0_3_nonneg _ R1)|]. split; [exact R2|].
      intros _. split; [reflexivity|].
      exact (matched_confidence_thousandths _ _ _ app_lexicons_disjoint M).
Qed.

(** C10: when a token is in a lexicon the confidence is at least 0.3, and
    for no text at all is the returned confidence strictly between 0 and
    0.3. *)
Theorem confidence_at_least_0_3 now text :
  let words := split (str_lower text) in
  (exists c,
     field "confidence" (Analyze.analyze now text) = Some (PFloat c)
     /\ (matches Analyze.positive_words Analyze.negative_words words ->
         F64.leb F64.f0_3 c = true)
     /\ ~ (F64.ltb F64.f0_0 c = true /\ F64.ltb c F64.f0_3 = true))
  /\
  (exists c,
     field "confidence" (App.analyze_text now text) = Some (PFloat c)
     /\ (matches App.positive_words App.negative_words words ->
         F64.leb F64.f0_3 c = true)
     /\ ~ (F64.ltb F64.f0_0 c = true /\ F64.ltb c F64.f0_3 = true)).
Proof.
  intros words. split.
  - destruct (three_branches Analyze.positive_words Analyze.negative_words text)
      as [E|[[E N]|M]].
    + exists F64.f0_0. rewrite (analyze_blank now text E).
      split; [lookup; reflexivity|]. split.
      * intros M. apply matches_not_blank in M. congruence.
      * intros [L _]. vm_compute in L. discriminate L.
    + exists F64.f0_5. rewrite (analyze_no_match now text E N).
      split; [lookup; reflexivity|]. split.
      * intros M. destruct (matches_exclusive _ _ _ M N).
      * intros [_ L]. vm_compute in L. discriminate L.
    + eexists. split; [exact (confidence_of_analyze_scored now text M)|].
      pose proof (matched_confidence_in_range _ _ _ analyze_lexicons_disjoint M) as R.
      apply andb_prop in R as [R1 R2].
      split; [intros _; exact R1|].
      intros [_ L]. rewrite (leb_not_ltb _ _ R1) in L. discriminate L.
  - destruct (three_branches App.positive_words App.negative_words text)
      as [E|[[E N]|M]].
    + exists F64.f0_0. rewrite (analyze_text_blank now text E).
      split; [lookup; reflexivity|]. split.
      * intros M. apply matches_not_blank in M. congruence.
      * intros [L _]. vm_compute in L. discriminate L.
    + exists F64.f0_5. rewrite (analyze_text_no_match now text E N).
      split; [lookup; reflexivity|]. split.
      * intros M. destruct (matches_exclusive _ _ _ M N).
      * intros [_ L]. vm_compute in L. discriminate L.
    + eexists. split; [exact (confidence_of_analyze_text_scored now text M)|].
      pose proof (matched_confidence_in_range _ _ _ app_lexicons_disjoint M) as R.
      apply andb_prop in R as [R1 R2].
      split; [intros _; exact R1|].
      intros [_ L]. rewrite (leb_not_ltb _ _ R1) in L. discriminate L.
Qed.

End ConfidenceOfResults.

Lemma confidence_in_unit_interval_witness :
  field "confidence" (Analyze.analyze (H := ascii_str_lower) sample_now hit_text)
  = Some (PFloat (F64.div (F64.exact 800) (F64.exact 1000)))
  /\ field "confidence" (App.analyze_text (H := ascii_str_lower) sample_now hit_text)
     = Some (PFloat (F64.div (F64.exact 800) (F64.exact 1000))).
Proof.
  destruct (confidence_in_unit_interval (H := ascii_str_lower) sample_now hit_text)
    as [(c & Hc & _ & _ & Ec) (c' & Hc' & _ & _ & Ec')].
  destruct Ec as [Ec _]; [apply (bool_decide_unpack _); vm_compute; exact I|].
  destruct Ec' as [Ec' _]; [apply (bool_decide_unpack _); vm_compute; exact I|].
  split.
  - rewrite Hc, Ec. vm_compute. reflexivity.
  - rewrite Hc', Ec'. vm_compute. reflexivity.
Defined.

Lemma confidence_at_least_0_3_witness :
  (exists c,
     field "confidence" (Analyze.analyze (H := ascii_str_lower) sample_now boundary_text)
     = Some (PFloat c) /\ F64.leb F64.f0_3 c = true)
  /\ (exists c,
     field "confidence" (App.analyze_text (H := ascii_str_lower) sample_now boundary_text)
     = Some (PFloat c) /\ F64.leb F64.f0_3 c = true).
Proof.
  destruct (confidence_at_least_0_3 (H := ascii_str_lower) sample_now boundary_text)
    as [(c & Hc & Lc & _) (c' & Hc' & Lc' & _)].
  split.
  - exists c. split; [exact Hc|]. apply Lc.
    apply (bool_decide_unpack _). vm_compute. exact I.
  - exists c'. split; [exact Hc'|]. apply Lc'.
    apply (bool_decide_unpack _). vm_compute. exact I.
Defined.

(* ===================================================================== *)
(** * Metadata, word counts and case *)
(* ===================================================================== *)

Section Metadata.
Context `{StrLower}.
Implicit Types (now text : pystr).

(** The metadata of the scored branch, in each file. *)
Lemma metadata_of_analyze_scored now text :
  let words := split (str_lower text) in
  matches Analyze.positive_words Analyze.negative_words words ->
  field "metadata" (Analyze.analyze now text)
  = Some (PDict [(lit "text_length", PInt (len text));
                 (lit "word_count", PInt (len words));
                 (lit "positive_words", PInt (count_in Analyze.positive_words words));
                 (lit "negative_words", PInt (count_in Analyze.negative_words words));
                 (lit "timestamp", PStr now)]).
Proof.
  intros words M. rewrite (analyze_scored now text M). fold words.
  destruct (classify _) as [[sentiment message] emoji]. lookup. reflexivity.
Qed.

Lemma metadata_of_analyze_text_scored now text :
  let words := split (str_lower text) in
  matches App.positive_words App.negative_words words ->
  field "metadata" (App.analyze_text now text)
  = Some (PDict [(lit "text_length", PInt (len text));
                 (lit "word_count", PInt (len words));
                 (lit "analysis_timestamp", PStr now);
                 (lit "api_version", PStr (lit "1.0"));
                 (lit "method", PStr (lit "SimpleFallback"))]).
Proof.
  intros words M. rewrite (analyze_text_scored now text M). fold words.
  destruct (classify _) as [[sentiment message] emoji]. lookup. reflexivity.
Qed.

(** C7, as the code has it: when a token is in a lexicon, the result of
    [analyze] in analyze.py has a metadata dict with the length of the
    text as given, the number of words, the two counts and the timestamp;
    the one of [analyze_text] in app.py has the length, the number of
    words, the timestamp under [analysis_timestamp], the API version and
    the method, and neither count. *)
Theorem scored_result_metadata now text :
  let words := split (str_lower text) in
  (matches Analyze.positive_words Analyze.negative_words words ->
   metadata_field "text_length" (Analyze.analyze now text) = Some (PInt (len text))
   /\ metadata_field "word_count" (Analyze.analyze now text) = Some (PInt (len words))
   /\ metadata_field "positive_words" (Analyze.analyze now text)
      = Some (PInt (count_in Analyze.positive_words words))
   /\ metadata_field "negative_words" (Analyze.analyze now text)
      = Some (PInt (count_in Analyze.negative_words words))
   /\ metadata_field "timestamp" (Analyze.analyze now text) = Some (PStr now))
  /\
  (matches App.positive_words App.negative_words words ->
   metadata_field "text_length" (App.analyze_text now text) = Some (PInt (len text))
   /\ metadata_field "word_count" (App.analyze_text now text) = Some (PInt (len words))
   /\ metadata_field "analysis_timestamp" (App.analyze_text now text) = Some (PStr now)
   /\ metadata_field "api_version" (App.analyze_text now text) = Some (PStr (lit "1.0"))
   /\ metadata_field "method" (App.analyze_text now text)
      = Some (PStr (lit "SimpleFallback"))
   /\ metadata_field "positive_words" (App.analyze_text now text) = None
   /\ metadata_field "negative_words" (App.analyze_text now text) = None).
Proof.
  intros words. split; intros M.
  - pose proof (metadata_of_analyze_scored now text M) as E. fold words in E.
    unfold metadata_field. rewrite E. repeat split; lookup; reflexivity.
  - pose proof (metadata_of_analyze_text_scored now text M) as E. fold words in E.
    unfold metadata_field. rewrite E. repeat split; lookup; reflexivity.
Qed.

(** The two early returns carry no metadata. *)
Lemma early_returns_without_metadata now text :
  (forallb is_space text = true
   \/ matches_nothing Analyze.positive_words Analyze.negative_words
        (split (str_lower text)) ->
   field "metadata" (Analyze.analyze now text) = None)
  /\
  (forallb is_space text = true
   \/ matches_nothing App.positive_words App.negative_words (split (str_lower text)) ->
   field "metadata" (App.analyze_text now text) = None).
Proof.
  split; intros [E|N].
  - rewrite (analyze_blank now text E). lookup. reflexivity.
  - destruct (forallb is_space text) eqn:E.
    + rewrite (analyze_blank now text E). lookup. reflexivity.
    + rewrite (analyze_no_match now text E N). lookup. reflexivity.
  - rewrite (analyze_text_blank now text E). lookup. reflexivity.
  - destruct (forallb is_space text) eqn:E.
    + rewrite (analyze_text_blank now text E). lookup. reflexivity.
    + rewrite (analyze_text_no_match now text E N). lookup. reflexivity.
Qed.

(** C8: the word count in the metadata is the number of
    whitespace-delimited tokens of the lowercased text, and the two counts
    reported with it add up to at most that number.  A text with a token
    in a lexicon gets these entries (in app.py the word count only, the
    two counts are computed and not reported); for every text, whatever
    word count the result reports is that number, and the two counts of
    lexicon words add up to at most the number of tokens.  The lexicons of
    each file are disjoint, and with a word in both lexicons the bound
    would fail on the text made of that word. *)
Theorem word_count_bounds_hits now text :
  let words := split (str_lower text) in
  let tokens := Z.of_nat (count_tokens (str_lower text)) in
  (matches Analyze.positive_words Analyze.negative_words words ->
   metadata_field "word_count" (Analyze.analyze now text) = Some (PInt tokens)
   /\ metadata_field "positive_words" (Analyze.analyze now text)
      = Some (PInt (count_in Analyze.positive_words words))
   /\ metadata_field "negative_words" (Analyze.analyze now text)
      = Some (PInt (count_in Analyze.negative_words words)))
  /\ (matches App.positive_words App.negative_words words ->
      metadata_field "word_count" (App.analyze_text now text) = Some (PInt tokens))
  /\ (forall wc,
        metadata_field "word_count" (Analyze.analyze now text) = Some wc ->
        wc = PInt tokens
        /\ exists p n,
             metadata_field "positive_words" (Analyze.analyze now text) = Some (PInt p)
             /\ metadata_field "negative_words" (Analyze.analyze now text)
                = Some (PInt n)
             /\ p + n <= tokens)
  /\ (forall wc,
        metadata_field "word_count" (App.analyze_text now text) = Some wc ->
        wc = PInt tokens)
  /\ count_in Analyze.positive_words words + count_in Analyze.negative_words words
     <= tokens
  /\ count_in App.positive_words words + count_in App.negative_words words <= tokens
  /\ Analyze.positive_words ## Analyze.negative_words
  /\ App.positive_words ## App.negative_words
  /\ (forall (pos neg : gset pystr) (w : pystr),
        w ∈ pos -> w ∈ neg -> len [w] < count_in pos [w] + count_in neg [w]).
Proof.
  intros words tokens.
  assert (L : len words = tokens).
  { unfold len, tokens, words. rewrite length_split. reflexivity. }
  assert (Ba : count_in Analyze.positive_words words
               + count_in Analyze.negative_words words <= tokens).
  { rewrite <- L. apply count_in_disjoint. exact analyze_lexicons_disjoint. }
  assert (Bb : count_in App.positive_words words
               + count_in App.negative_words words <= tokens).
  { rewrite <- L. apply count_in_disjoint. exact app_lexicons_disjoint. }
  assert (Sa : matches Analyze.positive_words Analyze.negative_words words ->
               field "metadata" (Analyze.analyze now text)
               = Some (PDict [(lit "text_length", PInt (len text));
                              (lit "word_count", PInt tokens);
                              (lit "positive_words",
                                PInt (count_in Analyze.positive_words words));
                              (lit "negative_words",
                                PInt (count_in Analyze.negative_words words));
                              (lit "timestamp", PStr now)])).
  { intros M. rewrite <- L. exact (metadata_of_analyze_scored now text M). }
  assert (Sb : matches App.positive_words App.negative_words words ->
               field "metadata" (App.analyze_text now text)
               = Some (PDict [(lit "text_length", PInt (len text));
                              (lit "word_count", PInt tokens);
                              (lit "analysis_timestamp", PStr now);
                              (lit "api_version", PStr (lit "1.0"));
                              (lit "method", PStr (lit "SimpleFallback"))])).
  { intros M. rewrite <- L. exact (metadata_of_analyze_text_scored now text M). }
  split; [|split; [|split; [|split; [|split; [exact Ba|split; [exact Bb|
    split; [exact analyze_lexicons_disjoint|split; [exact app_lexicons_disjoint|]]]]]]]].
  - intros M. unfold metadata_field. rewrite (Sa M).
    repeat split; lookup; reflexivity.
  - intros M. unfold metadata_field. rewrite (Sb M). lookup. reflexivity.
  - intros wc Hwc.
    destruct (three_branches Analyze.positive_words Analyze.negative_words text)
      as [E|[[E N]|M]].
    + rewrite (analyze_blank now text E) in Hwc. revert Hwc. lookup. discriminate.
    + rewrite (analyze_no_match now text E N) in Hwc. revert Hwc. lookup. discriminate.
    + unfold metadata_field in *. rewrite (Sa M) in *. revert Hwc. lookup.
      intros [= <-]. split; [reflexivity|].
      eexists _, _. split; [reflexivity|]. split; [reflexivity|exact Ba].
  - intros wc Hwc.
    destruct (three_branches App.positive_words App.negative_words text)
      as [E|[[E N]|M]].
    + rewrite (analyze_text_blank now text E) in Hwc. revert Hwc. lookup. discriminate.
    + rewrite (analyze_text_no_match now text E N) in Hwc. revert Hwc. lookup.
      discriminate.
    + unfold metadata_field in Hwc. rewrite (Sb M) in Hwc. revert Hwc. lookup.
      intros [= <-]. reflexivity.
  - intros pos neg w Hp Hn. rewrite !count_in_cons, !count_in_nil.
    destruct (decide (w ∈ pos)); [|contradiction].
    destruct (decide (w ∈ neg)); [|contradiction].
    unfold len. simpl. lia.
Qed.

End Metadata.

Section CaseAndTime.
Context `{StrLower}.
Implicit Types (now text : pystr).

Lemma same_lower_same_blank (a b : pystr) :
  str_lower a = str_lower b -> forallb is_space a = forallb is_space b.
Proof.
  intros E. rewrite <- (str_lower_blank a), <- (str_lower_blank b), E. reflexivity.
Qed.

(** C9: the sentiment and the confidence that a scorer returns depend
    neither on the time of the run nor on the case of the letters: two
    runs, at any two times, on two texts with the same lowercased form
    return the same sentiment and the same confidence. *)
Theorem same_words_same_verdict (now now' a b : pystr) :
  str_lower a = str_lower b ->
  (exists sentiment confidence,
     field "sentiment" (Analyze.analyze now a) = Some sentiment
     /\ field "sentiment" (Analyze.analyze now' b) = Some sentiment
     /\ field "confidence" (Analyze.analyze now a) = Some confidence
     /\ field "confidence" (Analyze.analyze now' b) = Some confidence)
  /\
  (exists sentiment confidence,
     field "sentiment" (App.analyze_text now a) = Some sentiment
     /\ field "sentiment" (App.analyze_text now' b) = Some sentiment
     /\ field "confidence" (App.analyze_text now a) = Some confidence
     /\ field "confidence" (App.analyze_text now' b) = Some confidence).
Proof.
  intros E. pose proof (same_lower_same_blank a b E) as B. split.
  - destruct (three_branches Analyze.positive_words Analyze.negative_words a)
      as [Ea|[[Ea N]|M]].
    + rewrite (analyze_blank now a Ea), (analyze_blank now' b ltac:(congruence)).
      eexists _, _. repeat split; lookup; reflexivity.
    + rewrite (analyze_no_match now a Ea N).
      rewrite E in N. rewrite (analyze_no_match now' b ltac:(congruence) N).
      eexists _, _. repeat split; lookup; reflexivity.
    + rewrite (analyze_scored now a M).
      rewrite E in M. rewrite (analyze_scored now' b M). rewrite E.
      destruct (classify _) as [[sentiment message] emoji].
      eexists _, _. repeat split; lookup; reflexivity.
  - destruct (three_branches App.positive_words App.negative_words a)
      as [Ea|[[Ea N]|M]].
    + rewrite (analyze_text_blank now a Ea), (analyze_text_blank now' b ltac:(congruence)).
      eexists _, _. repeat split; lookup; reflexivity.
    + rewrite (analyze_text_no_match now a Ea N).
      rewrite E in N. rewrite (analyze_text_no_match now' b ltac:(congruence) N).
      eexists _, _. repeat split; lookup; reflexivity.
    + rewrite (analyze_text_scored now a M).
      rewrite E in M. rewrite (analyze_text_scored now' b M). rewrite E.
      destruct (classify _) as [[sentiment message] emoji].
      eexists _, _. repeat split; lookup; reflexivity.
Qed.

End CaseAndTime.

Lemma scored_result_metadata_witness :
  metadata_field "word_count" (Analyze.analyze (H := ascii_str_lower) sample_now hit_text)
  = Some (PInt 2)
  /\ metadata_field "method" (App.analyze_text (H := ascii_str_lower) sample_now hit_text)
     = Some (PStr (lit "SimpleFallback")).
Proof.
  destruct (scored_result_metadata (H := ascii_str_lower) sample_now hit_text) as [A B].
  split.
  - apply A. apply (bool_decide_unpack _). vm_compute. exact I.
  - apply B. apply (bool_decide_unpack _). vm_compute. exact I.
Defined.

(** C7 as stated fails: a text with no word of a lexicon and a text of
    whitespace get no metadata at all, and the metadata of app.py never
    has the two counts. *)
Lemma metadata_not_always_there :
  field "metadata" (Analyze.analyze (H := ascii_str_lower) sample_now plain_text) = None
  /\ field "metadata" (Analyze.analyze (H := ascii_str_lower) sample_now blank_text) = None
  /\ field "metadata" (App.analyze_text (H := ascii_str_lower) sample_now plain_text) = None
  /\ metadata_field "positive_words"
       (App.analyze_text (H := ascii_str_lower) sample_now hit_text) = None.
Proof. repeat split; vm_compute; reflexivity. Qed.

Lemma word_count_bounds_hits_witness :
  metadata_field "word_count" (Analyze.analyze (H := ascii_str_lower) sample_now hit_text)
  = Some (PInt 2)
  /\ metadata_field "positive_words"
       (Analyze.analyze (H := ascii_str_lower) sample_now hit_text) = Some (PInt 1)
  /\ metadata_field "word_count"
       (App.analyze_text (H := ascii_str_lower) sample_now boundary_text)
     = Some (PInt 20)
  /\ PInt 2 = PInt (Z.of_nat (count_tokens (str_lower (StrLower := ascii_str_lower) hit_text)))
  /\ len [lit "nice"] < count_in {[lit "nice"]} [lit "nice"] + count_in {[lit "nice"]} [lit "nice"].
Proof.
  destruct (word_count_bounds_hits (H := ascii_str_lower) sample_now hit_text)
    as (E & _ & A & _ & _ & _ & _ & _ & D).
  destruct (word_count_bounds_hits (H := ascii_str_lower) sample_now boundary_text)
    as (_ & E' & _).
  destruct E as (W & P & _); [apply (bool_decide_unpack _); vm_compute; exact I|].
  split; [exact W|]. split; [exact P|].
  split; [apply E'; apply (bool_decide_unpack _); vm_compute; exact I|].
  split.
  - apply (A (PInt 2)). vm_compute. reflexivity.
  - apply D; apply (bool_decide_unpack _); vm_compute; exact I.
Defined.

Lemma same_words_same_verdict_witness :
  exists sentiment confidence,
    field "sentiment" (Analyze.analyze (H := ascii_str_lower) sample_now hit_text)
    = Some sentiment
    /\ field "sentiment" (Analyze.analyze (H := ascii_str_lower) later_now shouted_text)
       = Some sentiment
    /\ field "confidence" (Analyze.analyze (H := ascii_str_lower) sample_now hit_text)
       = Some confidence
    /\ field "confidence" (Analyze.analyze (H := ascii_str_lower) later_now shouted_text)
       = Some confidence.
Proof.
  apply (same_words_same_verdict (H := ascii_str_lower) sample_now later_now
           hit_text shouted_text).
  vm_compute. reflexivity.
Defined.

(* ===================================================================== *)
(** * What a handler can send *)
(* ===================================================================== *)

(** The literals of the two files are ASCII, and so is a timestamp: they
    can be encoded. *)
Lemma lit_encodable (s : string) : encodable_str (lit s) = true.
Proof.
  unfold encodable_str, lit. apply forallb_forall. intros c I.
  apply in_map_iff in I as (a & <- & _).
  pose proof (N_ascii_bounded a) as B. unfold is_surrogate.
  destruct (N.leb_spec 55296 (N_of_ascii a)); [lia|reflexivity].
Qed.

Lemma timestamp_encodable (now : timestamp) : encodable_str now = true.
Proof.
  unfold encodable_str. apply forallb_forall. intros c I.
  pose proof (iso_ascii now) as A.
  apply (proj1 (forallb_forall _ _) A) in I. apply N.ltb_lt in I.
  unfold is_surrogate. destruct (N.leb_spec 55296 c); [lia|reflexivity].
Qed.

(** A document that can be encoded is sent whole; of one that cannot, the
    status line and the headers are sent before the encoding fails. *)
Lemma send_json_whole `{StrLower} (data : pyval) (status_code : Z) :
  encodable data = true ->
  Analyze._send_json data status_code
  = ([SendResponse status_code Analyze.headers (Some data)], Ok tt).
Proof. intros E. unfold Analyze._send_json. rewrite E. reflexivity. Qed.

Lemma send_json_response_whole (data : pyval) (status_code : Z) :
  encodable data = true ->
  App._send_json_response data status_code
  = ([SendResponse status_code
        ((lit "Content-Type", lit "application/json") :: App.cors_headers)
        (Some data)],
     Ok tt).
Proof. intros E. unfold App._send_json_response. rewrite E. reflexivity. Qed.

Lemma send_json_response_head (data : pyval) (status_code : Z) :
  encodable data = false ->
  App._send_json_response data status_code
  = ([SendResponse status_code
        ((lit "Content-Type", lit "application/json") :: App.cors_headers)
        None],
     Raise UnicodeEncodeError).
Proof. intros E. unfold App._send_json_response. rewrite E. reflexivity. Qed.

Ltac encodable_body :=
  cbn [encodable forallb andb];
  rewrite ?lit_encodable, ?timestamp_encodable; reflexivity.

(** The answers that the handlers make up themselves are sent whole. *)
Lemma send_error_response_whole (now : timestamp) (message : string) (status_code : Z) :
  App._send_error_response now message status_code
  = ([SendResponse status_code
        ((lit "Content-Type", lit "application/json") :: App.cors_headers)
        (Some (PDict [(lit "error", PStr (lit message));
                      (lit "timestamp", PStr now);
                      (lit "status_code", PInt status_code)]))],
     Ok tt).
Proof.
  unfold App._send_error_response. apply send_json_response_whole. encodable_body.
Qed.

Lemma send_internal_error_whole (now : timestamp) (e : exn) :
  App._send_json_response
    (PDict [(lit "error", PStr (lit "Internal server error"));
            (lit "message", PExnStr e);
            (lit "timestamp", PStr now)]) 500
  = ([app_internal_error now e], Ok tt).
Proof. apply send_json_response_whole. encodable_body. Qed.

Lemma send_health_whole (evaluator_available : bool) (now : timestamp) :
  App._send_json_response
    (PDict [(lit "status", PStr (lit "healthy"));
            (lit "timestamp", PStr now);
            (lit "version", PStr (lit "1.0"));
            (lit "evaluator_available", PBool evaluator_available);
            (lit "platform", PStr (lit "Vercel Serverless"))]) 200
  = ([app_ok (health_data evaluator_available now)], Ok tt).
Proof. apply send_json_response_whole. encodable_body. Qed.

Lemma send_json_rejection `{StrLower} (message : string) :
  Analyze._send_json (Analyze.error_body message) 400 = analyze_rejection message.
Proof. apply send_json_whole. unfold Analyze.error_body. encodable_body. Qed.

Lemma send_json_internal_error `{StrLower} (e : exn) :
  Analyze._send_json
    (PDict [(lit "error", PStr (lit "Internal server error"));
            (lit "message", PExnStr e)]) 500
  = analyze_internal_error e.
Proof. apply send_json_whole. encodable_body. Qed.

Arguments Analyze._send_json : simpl never.
Arguments App._send_json_response : simpl never.
Arguments App._send_error_response : simpl never.

(* ===================================================================== *)
(** * The request handlers *)
(* ===================================================================== *)

Section Handlers.
Context `{StrLower}.
Variable evaluator : option (pystr -> res pyval).
Implicit Types (now : timestamp) (req : request).

(** C5, where the code departs from it: a body that is valid JSON but not
    an object, here the number 5, is not rejected with 400 "Invalid JSON":
    the test ["text" not in data] raises [TypeError], and both handlers
    answer 500 "Internal server error". *)
Theorem json_number_body_is_internal_error now :
  Analyze.handle now number_body_request
  = ([SendResponse 500 Analyze.headers
        (Some (PDict [(lit "error", PStr (lit "Internal server error"));
                      (lit "message", PExnStr TypeError)]))],
     Ok tt)
  /\ App.handle evaluator now number_body_request
     = ([SendResponse 500
           ((lit "Content-Type", lit "application/json") :: App.cors_headers)
           (Some (PDict [(lit "error", PStr (lit "Internal server error"));
                         (lit "message", PExnStr TypeError);
                         (lit "timestamp", PStr now)]))],
        Ok tt).
Proof.
  split; [reflexivity|].
  unfold App.handle, App.do_POST. simpl.
  rewrite send_internal_error_whole. reflexivity.
Qed.

Lemma str_eqb_false (a b : pystr) : a <> b -> str_eqb a b = false.
Proof. intros N. unfold str_eqb. apply bool_decide_eq_false_2. exact N. Qed.

Lemma str_eqb_true (a b : pystr) : a = b -> str_eqb a b = true.
Proof. intros E. unfold str_eqb. apply bool_decide_eq_true_2. exact E. Qed.

(** C6, as the code has it: in app.py a GET off the two health paths and a
    POST off the two analysis paths (the path taken up to the first
    question mark) get the 404 answer "Endpoint not found" and nothing
    else happens; a method other than OPTIONS, GET and POST is answered
    501 by the base class, as is every method other than OPTIONS and POST
    in analyze.py, whose POST ignores the path. *)
Theorem unrouted_requests now req :
  (command req = lit "GET" ->
   before_query (path req) ∉ [lit "/api/health"; lit "/health"] ->
   App.handle evaluator now req = not_found now)
  /\ (command req = lit "POST" ->
      before_query (path req) ∉ [lit "/api/analyze"; lit "/analyze"] ->
      App.handle evaluator now req = not_found now)
  /\ (command req ∉ [lit "OPTIONS"; lit "GET"; lit "POST"] ->
      App.handle evaluator now req = ([SendError 501], Ok tt))
  /\ (command req ∉ [lit "OPTIONS"; lit "POST"] ->
      Analyze.handle now req = ([SendError 501], Ok tt))
  /\ (forall p,
        command req = lit "POST" ->
        Analyze.handle now
          {| command := command req; path := p;
             content_length := content_length req; payload := payload req |}
        = Analyze.handle now req).
Proof.
  split; [|split; [|split; [|split]]].
  - intros C P. apply not_elem_of_cons in P as [P1 P2].
    apply not_elem_of_cons in P2 as [P2 _].
    unfold App.handle, App.do_GET. rewrite C.
    rewrite (str_eqb_false _ _ P1), (str_eqb_false _ _ P2). simpl.
    apply send_error_response_whole.
  - intros C P. apply not_elem_of_cons in P as [P1 P2].
    apply not_elem_of_cons in P2 as [P2 _].
    unfold App.handle, App.do_POST. rewrite C.
    rewrite (str_eqb_false _ _ P1), (str_eqb_false _ _ P2). simpl.
    apply send_error_response_whole.
  - intros C. apply not_elem_of_cons in C as [C1 C].
    apply not_elem_of_cons in C as [C2 C]. apply not_elem_of_cons in C as [C3 _].
    unfold App.handle.
    rewrite (str_eqb_false _ _ C1), (str_eqb_false _ _ C2), (str_eqb_false _ _ C3).
    reflexivity.
  - intros C. apply not_elem_of_cons in C as [C1 C].
    apply not_elem_of_cons in C as [C2 _].
    unfold Analyze.handle.
    rewrite (str_eqb_false _ _ C1), (str_eqb_false _ _ C2). reflexivity.
  - intros p C. reflexivity.
Qed.

End Handlers.

(** C6 as stated fails: the handler of analyze.py scores a POST on a path
    that is no analysis path and answers 200, and a PUT is answered 501 by
    both handlers. *)
Lemma post_elsewhere_is_scored :
  Analyze.handle (H := ascii_str_lower) sample_now elsewhere_request
  = ([CallScorer SimpleScorer hit_text;
      SendResponse 200 Analyze.headers
        (Some (PDict [(lit "sentiment", PStr (lit "positive"));
                      (lit "confidence",
                        PFloat (F64.div (F64.exact 800) (F64.exact 1000)));
                      (lit "message", PStr (lit "Positive sentiment detected!"));
                      (lit "emoji", PStr emoji_positive);
                      (lit "metadata",
                        PDict [(lit "text_length", PInt 9);
                               (lit "word_count", PInt 2);
                               (lit "positive_words", PInt 1);
                               (lit "negative_words", PInt 0);
                               (lit "timestamp", PStr sample_now)])]))],
     Ok tt)
  /\ statuses (Analyze.handle (H := ascii_str_lower) sample_now put_request) = [501]
  /\ statuses (App.handle (H := ascii_str_lower) None sample_now put_request) = [501].
Proof. repeat split; vm_compute; reflexivity. Qed.

Lemma unrouted_requests_witness :
  App.handle (H := ascii_str_lower) None sample_now get_elsewhere_request
  = not_found sample_now
  /\ App.handle (H := ascii_str_lower) None sample_now elsewhere_request
     = not_found sample_now
  /\ App.handle (H := ascii_str_lower) None sample_now put_request
     = ([SendError 501], Ok tt)
  /\ Analyze.handle (H := ascii_str_lower) sample_now get_elsewhere_request
     = ([SendError 501], Ok tt)
  /\ Analyze.handle (H := ascii_str_lower) sample_now
       {| command := command elsewhere_request; path := lit "/api/analyze";
          content_length := content_length elsewhere_request;
          payload := payload elsewhere_request |}
     = Analyze.handle (H := ascii_str_lower) sample_now elsewhere_request.
Proof.
  pose proof (unrouted_requests (H := ascii_str_lower) None sample_now get_elsewhere_request)
    as (G & _ & _ & A & _).
  pose proof (unrouted_requests (H := ascii_str_lower) None sample_now elsewhere_request)
    as (_ & P & _ & _ & I).
  pose proof (unrouted_requests (H := ascii_str_lower) None sample_now put_request)
    as (_ & _ & U & _ & _).
  split; [|split; [|split; [|split]]].
  - apply G; [reflexivity|apply (bool_decide_unpack _); vm_compute; exact Logic.I].
  - apply P; [reflexivity|apply (bool_decide_unpack _); vm_compute; exact Logic.I].
  - apply U. apply (bool_decide_unpack _). vm_compute. exact Logic.I.
  - apply A. apply (bool_decide_unpack _). vm_compute. exact Logic.I.
  - apply I. reflexivity.
Defined.

Section PostValidation.
Context `{StrLower}.
Variable evaluator : option (pystr -> res pyval).
Implicit Types (now : timestamp) (req : request).

Lemma blank_not_truthy (s : pystr) :
  truthy (strip s) = negb (forallb is_space s).
Proof.
  destruct (forallb is_space s) eqn:E.
  - apply strip_nil_iff in E. rewrite E. reflexivity.
  - destruct (strip s) eqn:Es; [|reflexivity].
    apply strip_nil_iff in Es. congruence.
Qed.

(** The validation of analyze.py's [do_POST], check by check: each failed
    check writes its own 400 answer and nothing else, so no scorer runs
    and no later check is made. *)
Theorem analyze_post_validation now req :
  (content_length req = Ok 0 ->
   Analyze.do_POST now req = analyze_rejection "No data provided")
  /\ (forall n, content_length req = Ok n -> n <> 0 ->
      (payload req = Raise JSONDecodeError ->
       Analyze.do_POST now req = analyze_rejection "Invalid JSON")
      /\ (forall d, payload req = Ok (PDict d) ->
          (dget (lit "text") d = None ->
           Analyze.do_POST now req = analyze_rejection "Missing text field")
          /\ (forall v, dget (lit "text") d = Some v -> not_a_text v ->
              Analyze.do_POST now req
              = analyze_rejection "Text must be a non-empty string"))).
Proof.
  split; [intros C|intros n C N; split; [intros P|intros d P; split; [intros T|intros v T V]]];
    unfold Analyze.do_POST; rewrite C; simpl.
  - reflexivity.
  - destruct (Z.eqb_spec n 0); [contradiction|]. rewrite P. reflexivity.
  - destruct (Z.eqb_spec n 0); [contradiction|]. rewrite P. simpl.
    unfold dhas. rewrite T. reflexivity.
  - destruct (Z.eqb_spec n 0); [contradiction|]. rewrite P. simpl.
    unfold dhas, dgetitem. rewrite T. simpl.
    destruct v; try reflexivity.
    rewrite blank_not_truthy, (V s eq_refl). reflexivity.
Qed.

End PostValidation.

Section AppPostValidation.
Context `{StrLower}.
Variable evaluator : option (pystr -> res pyval).
Implicit Types (now : timestamp) (req : request).

Lemma on_analysis_path_test req :
  on_analysis_path req ->
  str_eqb (before_query (path req)) (lit "/api/analyze")
  || str_eqb (before_query (path req)) (lit "/analyze") = true.
Proof.
  unfold on_analysis_path. intros P.
  apply elem_of_cons in P as [P|P].
  - rewrite (str_eqb_true _ _ P). reflexivity.
  - apply elem_of_cons in P as [P|P]; [|inversion P].
    rewrite (str_eqb_true _ _ P). apply orb_true_r.
Qed.

(** The validation of app.py's [do_POST] on an analysis path, check by
    check, whichever scorer is installed. *)
Theorem app_post_validation now req :
  on_analysis_path req ->
  (content_length req = Ok 0 ->
   App.do_POST evaluator now req = app_rejection now "No data provided")
  /\ (forall n, content_length req = Ok n -> n <> 0 ->
      (payload req = Raise JSONDecodeError ->
       App.do_POST evaluator now req = app_rejection now "Invalid JSON format")
      /\ (forall d, payload req = Ok (PDict d) ->
          (dget (lit "text") d = None ->
           App.do_POST evaluator now req = app_rejection now "Missing 'text' field")
          /\ (forall v, dget (lit "text") d = Some v -> not_a_text v ->
              App.do_POST evaluator now req
              = app_rejection now "Text must be a non-empty string"))).
Proof.
  intros R. apply on_analysis_path_test in R.
  split; [intros C|intros n C N; split; [intros P|intros d P; split; [intros T|intros v T V]]];
    unfold App.do_POST; rewrite R, C; simpl.
  - rewrite send_error_response_whole. reflexivity.
  - destruct (Z.eqb_spec n 0); [contradiction|]. rewrite P.
    rewrite send_error_response_whole. reflexivity.
  - destruct (Z.eqb_spec n 0); [contradiction|]. rewrite P. simpl.
    unfold dhas. rewrite T. simpl. rewrite send_error_response_whole. reflexivity.
  - destruct (Z.eqb_spec n 0); [contradiction|]. rewrite P. simpl.
    unfold dhas, dgetitem. rewrite T. simpl.
    destruct v; try (rewrite send_error_response_whole; reflexivity).
    rewrite blank_not_truthy, (V s eq_refl). simpl.
    rewrite send_error_response_whole. reflexivity.
Qed.

End AppPostValidation.

(* ===================================================================== *)
(** * Scoring through the handlers *)
(* ===================================================================== *)

(** Assigning to a key of a dict. *)
Lemma dget_dset_same (k : pystr) (v : pyval) (d : pydict) :
  dget k (dset k v d) = Some v.
Proof.
  induction d as [|[k' v'] d IH]; simpl.
  - rewrite (str_eqb_true k k eq_refl). reflexivity.
  - destruct (str_eqb k k') eqn:E; simpl.
    + rewrite (str_eqb_true k k eq_refl). reflexivity.
    + rewrite E. exact IH.
Qed.

Lemma dget_dset_other (k k' : pystr) (v : pyval) (d : pydict) :
  k' <> k -> dget k' (dset k v d) = dget k' d.
Proof.
  intros N. induction d as [|[k0 v0] d IH]; simpl.
  - rewrite (str_eqb_false _ _ N). reflexivity.
  - destruct (str_eqb k k0) eqn:E; simpl.
    + apply bool_decide_eq_true_1 in E. subst k0.
      rewrite (str_eqb_false _ _ N). reflexivity.
    + destruct (str_eqb k' k0); [reflexivity|exact IH].
Qed.

(** Reading an entry of a dict that can be encoded, and assigning to one. *)
Lemma encodable_dget (k : pystr) (d : pydict) (v : pyval) :
  encodable (PDict d) = true -> dget k d = Some v -> encodable v = true.
Proof.
  induction d as [|[k' v'] d IH]; simpl; [discriminate|].
  intros E G. apply andb_prop in E as [E1 E2]. apply andb_prop in E1 as [_ E1].
  destruct (str_eqb k k'); [injection G as <-; exact E1|exact (IH E2 G)].
Qed.

Lemma encodable_dset (k : pystr) (v : pyval) (d : pydict) :
  encodable_str k = true -> encodable v = true -> encodable (PDict d) = true ->
  encodable (PDict (dset k v d)) = true.
Proof.
  intros Ek Ev. induction d as [|[k' v'] d IH]; simpl.
  - intros _. rewrite Ek, Ev. reflexivity.
  - intros E. apply andb_prop in E as [E1 E2].
    destruct (str_eqb k k'); simpl.
    + rewrite Ek, Ev. exact E2.
    + rewrite E1. exact (IH E2).
Qed.

Section Scoring.
Context `{StrLower}.
Implicit Types (now text : pystr) (req : request).

Lemma classify_cases (score : spec_float) :
  classify score = verdict_positive \/ classify score = verdict_negative
  \/ classify score = verdict_neutral.
Proof.
  rewrite classify_thresholds.
  destruct (F64.ltb F64.f0_05 score); [tauto|].
  destruct (F64.ltb score (F64.neg F64.f0_05)); tauto.
Qed.

Lemma analyze_total now text :
  exists d, Analyze.analyze now text = Ok (PDict d).
Proof.
  destruct (three_branches Analyze.positive_words Analyze.negative_words text)
    as [E|[[E N]|M]].
  - rewrite (analyze_blank now text E). eauto.
  - rewrite (analyze_no_match now text E N). eauto.
  - rewrite (analyze_scored now text M).
    destruct (classify _) as [[sentiment message] emoji]. eauto.
Qed.

Lemma analyze_text_total now text :
  exists d, App.analyze_text now text = Ok (PDict d).
Proof.
  destruct (three_branches App.positive_words App.negative_words text)
    as [E|[[E N]|M]].
  - rewrite (analyze_text_blank now text E). eauto.
  - rewrite (analyze_text_no_match now text E N). eauto.
  - rewrite (analyze_text_scored now text M).
    destruct (classify _) as [[sentiment message] emoji]. eauto.
Qed.

Lemma classified_well_formed (result : res pyval) (score : spec_float) :
  verdict_of result = Some (classify score) -> well_formed_verdict result.
Proof.
  intros V. unfold well_formed_verdict. rewrite V.
  destruct (classify_cases score) as [C|[C|C]]; rewrite C;
    eexists; [left|right; left|right; right]; reflexivity.
Qed.

(** The scorers return a dict for every text: no division by zero and no
    other exception; the sentiment is one of three, and the emoji goes
    with the sentiment. *)
Theorem scorers_never_raise now text :
  (exists d, Analyze.analyze now text = Ok (PDict d))
  /\ well_formed_verdict (Analyze.analyze now text)
  /\ (exists d, App.analyze_text now text = Ok (PDict d))
  /\ well_formed_verdict (App.analyze_text now text).
Proof.
  split; [exact (analyze_total now text)|].
  split; [|split; [exact (analyze_text_total now text)|]].
  - destruct (three_branches Analyze.positive_words Analyze.negative_words text)
      as [E|[[E N]|M]].
    + rewrite (analyze_blank now text E). eexists. right. right. lookup. reflexivity.
    + rewrite (analyze_no_match now text E N). eexists. right. right. lookup.
      reflexivity.
    + exact (classified_well_formed _ _ (verdict_of_analyze_scored now text M)).
  - destruct (three_branches App.positive_words App.negative_words text)
      as [E|[[E N]|M]].
    + rewrite (analyze_text_blank now text E). eexists. right. right. lookup.
      reflexivity.
    + rewrite (analyze_text_no_match now text E N). eexists. right. right. lookup.
      reflexivity.
    + exact (classified_well_formed _ _ (verdict_of_analyze_text_scored now text M)).
Qed.

End Scoring.

Section ScoredAnswers.
Context `{StrLower}.
Implicit Types (now : timestamp) (text : pystr) (req : request).

Ltac classified :=
  match goal with
  | |- context [classify ?score] =>
      destruct (classify_cases score) as [C|[C|C]]; rewrite C
  end;
  cbv beta iota delta [verdict_positive verdict_negative verdict_neutral].

(** What the scorers return holds literals, numbers and the timestamp: it
    can be encoded, and so can the fallback scorer's result with the
    platform set. *)
Lemma analyze_encodable now text (result : pyval) :
  Analyze.analyze now text = Ok result -> encodable result = true.
Proof.
  destruct (three_branches Analyze.positive_words Analyze.negative_words text)
    as [E|[[E N]|M]].
  - rewrite (analyze_blank now text E). intros [= <-]. reflexivity.
  - rewrite (analyze_no_match now text E N). intros [= <-]. reflexivity.
  - rewrite (analyze_scored now text M). classified; intros [= <-]; encodable_body.
Qed.

Lemma analyze_text_encodable now text (result : pyval) :
  App.analyze_text now text = Ok result -> encodable result = true.
Proof.
  destruct (three_branches App.positive_words App.negative_words text)
    as [E|[[E N]|M]].
  - rewrite (analyze_text_blank now text E). intros [= <-]. reflexivity.
  - rewrite (analyze_text_no_match now text E N). intros [= <-]. reflexivity.
  - rewrite (analyze_text_scored now text M). classified; intros [= <-]; encodable_body.
Qed.

Lemma set_platform_encodable (result body : pyval) :
  encodable result = true -> App.set_platform result = Ok body ->
  encodable body = true.
Proof.
  intros E. unfold App.set_platform, py_getitem, dgetitem.
  destruct result as [| | | | | |d|]; try discriminate.
  destruct (dget (lit "metadata") d) as [metadata|] eqn:G; [|discriminate].
  simpl. destruct metadata as [| | | | | |md|]; try discriminate.
  intros [= <-]. apply encodable_dset; [apply lit_encodable| |exact E].
  apply encodable_dset; [apply lit_encodable|reflexivity|].
  exact (encodable_dget _ _ _ E G).
Qed.

(** A POST that passes the four checks of analyze.py is scored once, on
    the text as sent (not stripped), and answered 200 with the scorer's
    result as the body. *)
Theorem analyze_post_scores now req (n : Z) (d : pydict) (s : pystr) :
  content_length req = Ok n -> n <> 0 ->
  payload req = Ok (PDict d) ->
  dget (lit "text") d = Some (PStr s) ->
  forallb is_space s = false ->
  exists result,
    Analyze.analyze now s = Ok (PDict result)
    /\ Analyze.do_POST now req
       = ([CallScorer SimpleScorer s;
           SendResponse 200 Analyze.headers (Some (PDict result))],
          Ok tt).
Proof.
  intros C N P T B.
  destruct (analyze_total now s) as [result R].
  exists result. split; [exact R|].
  unfold Analyze.do_POST. rewrite C. simpl.
  destruct (Z.eqb_spec n 0); [contradiction|]. rewrite P. simpl.
  unfold dhas, dgetitem. rewrite T. simpl.
  rewrite blank_not_truthy, B. simpl. rewrite R. simpl.
  rewrite (send_json_whole _ _ (analyze_encodable now s _ R)). reflexivity.
Qed.

End ScoredAnswers.
Section AppScoring.
Context `{StrLower}.
Implicit Types (now : timestamp) (text : pystr) (req : request).

(** Running app.py's [do_POST] up to the call of the scorer. *)
Ltac pass_checks R C N P T B :=
  apply on_analysis_path_test in R;
  unfold App.do_POST; rewrite R, C; simpl;
  match goal with
  | |- context [Z.eqb ?n 0] => destruct (Z.eqb_spec n 0); [contradiction|]
  end;
  rewrite P; simpl; unfold dhas, dgetitem; rewrite T; simpl;
  rewrite blank_not_truthy, B; simpl.

Lemma set_platform_dict (result metadata : pydict) :
  dget (lit "metadata") result = Some (PDict metadata) ->
  App.set_platform (PDict result)
  = Ok (PDict (dset (lit "metadata")
                 (PDict (dset (lit "platform") (PStr (lit "Vercel Serverless")) metadata))
                 result)).
Proof.
  intros G. unfold App.set_platform, py_getitem, dgetitem. rewrite G. reflexivity.
Qed.

(** Without the full evaluator, a valid text with a word of a lexicon is
    scored by the fallback scorer and answered 200; the body is the
    scorer's result with the entry [platform] added to its metadata, and
    every other entry as the scorer returned it. *)
Theorem app_fallback_scores now req (n : Z) (d : pydict) (s : pystr) :
  on_analysis_path req ->
  content_length req = Ok n -> n <> 0 ->
  payload req = Ok (PDict d) ->
  dget (lit "text") d = Some (PStr s) ->
  matches App.positive_words App.negative_words (split (str_lower s)) ->
  exists result metadata body,
    App.analyze_text now s = Ok (PDict result)
    /\ dget (lit "metadata") result = Some (PDict metadata)
    /\ App.do_POST None now req
       = ([CallScorer SimpleScorer s; app_ok (PDict body)], Ok tt)
    /\ (forall k, k <> lit "metadata" -> dget k body = dget k result)
    /\ (exists metadata',
          dget (lit "metadata") body = Some (PDict metadata')
          /\ dget (lit "platform") metadata' = Some (PStr (lit "Vercel Serverless"))
          /\ (forall k, k <> lit "platform" -> dget k metadata' = dget k metadata)).
Proof.
  intros R C N P T M.
  pose proof (matches_not_blank _ _ _ M) as B.
  destruct (analyze_text_total now s) as [result E].
  pose proof (metadata_of_analyze_text_scored now s M) as Md.
  rewrite E in Md. unfold field in Md.
  eexists result, _, _. split; [exact E|]. split; [exact Md|].
  split; [|split].
  - pass_checks R C N P T B.
    rewrite E. simpl.
    pose proof (set_platform_dict _ _ Md) as S.
    remember (dset (lit "metadata") _ result) as body eqn:Eb in S.
    rewrite S. simpl.
    rewrite send_json_response_whole; [subst body; reflexivity|].
    exact (set_platform_encodable _ _ (analyze_text_encodable now s _ E) S).
  - intros k Hk. apply dget_dset_other. exact Hk.
  - eexists. split; [apply dget_dset_same|].
    split; [apply dget_dset_same|].
    intros k Hk. apply dget_dset_other. exact Hk.
Qed.

(** Without the full evaluator, a valid text with no word of a lexicon
    never gets its neutral verdict: the fallback scorer returns a dict
    without metadata, the assignment to its [platform] raises [KeyError],
    and the answer is 500. *)
Theorem app_fallback_without_match_fails now req (n : Z) (d : pydict) (s : pystr) :
  on_analysis_path req ->
  content_length req = Ok n -> n <> 0 ->
  payload req = Ok (PDict d) ->
  dget (lit "text") d = Some (PStr s) ->
  forallb is_space s = false ->
  matches_nothing App.positive_words App.negative_words (split (str_lower s)) ->
  App.do_POST None now req
  = ([CallScorer SimpleScorer s; app_internal_error now (KeyError (lit "metadata"))],
     Ok tt).
Proof.
  intros R C N P T B M. pass_checks R C N P T B.
  rewrite (analyze_text_no_match now s B M). simpl.
  rewrite send_internal_error_whole. reflexivity.
Qed.



End AppScoring.
Ltac branch :=
  match goal with
  | |- context [match ?x with _ => _ end] =>
      let T := type of x in
      lazymatch eval hnf in T with
      | prod _ _ => fail
      | _ => destruct x eqn:?
      end
  end.

(** Sending the documents that the handlers make up, a scorer's result,
    and the document made from what the evaluator returned. *)
Ltac send :=
  match goal with
  | |- context [Analyze._send_json (Analyze.error_body ?m) 400] =>
      rewrite (send_json_rejection m)
  | |- context [Analyze._send_json (PDict [_; (_, PExnStr ?e)]) 500] =>
      rewrite (send_json_internal_error e)
  | |- context [App._send_error_response ?now ?m ?c] =>
      rewrite (send_error_response_whole now m c)
  | |- context [App._send_json_response (PDict [_; (_, PExnStr ?e); (_, PStr (iso ?now))]) 500] =>
      rewrite (send_internal_error_whole now e)
  | |- context [App._send_json_response (PDict (_ :: (_, PStr (iso ?now)) :: _ :: (_, PBool ?b) :: _)) 200] =>
      rewrite (send_health_whole b now)
  | E : Analyze.analyze _ _ = Ok ?p |- context [Analyze._send_json ?p ?c] =>
      rewrite (send_json_whole p c (analyze_encodable _ _ _ E))
  | E : App.analyze_text _ _ = Ok ?r, S : App.set_platform ?r = Ok ?p
    |- context [App._send_json_response ?p ?c] =>
      rewrite (send_json_response_whole p c
                 (set_platform_encodable _ _ (analyze_text_encodable _ _ _ E) S))
  | |- context [App._send_json_response ?p ?c] =>
      let En := fresh "En" in
      destruct (encodable p) eqn:En;
      [rewrite (send_json_response_whole p c En)
      |rewrite (send_json_response_head p c En)]
  end.

Section OneAnswer.
Context `{StrLower}.
Implicit Types (now : timestamp) (req : request).




End OneAnswer.
Section WhenScorersRun.
Context `{StrLower}.
Variable evaluator : option (pystr -> res pyval).
Implicit Types (now : timestamp) (req : request).

Ltac no_call I :=
  repeat (apply elem_of_cons in I as [I|I]; [discriminate I|]); inversion I.

Ltac never_called :=
  solve [ repeat (simpl; first [branch | send]); simpl;
          let I := fresh "I" in intros I; no_call I ].

(** A scorer runs only for a POST that carries a valid text (in app.py
    only on an analysis path), and it is given that text; so no request
    reaches the empty-text return of a scorer.  app.py calls the full
    evaluator when there is one and the fallback scorer otherwise. *)
Theorem scorer_runs_on_valid_text_only now req (which : scorer) (text : pystr) :
  (CallScorer which text ∈ trace (Analyze.handle now req) ->
   carries_text req text /\ which = SimpleScorer)
  /\ (CallScorer which text ∈ trace (App.handle evaluator now req) ->
      carries_text req text /\ on_analysis_path req
      /\ which = match evaluator with Some _ => FullEvaluator | None => SimpleScorer end).
Proof.
  split.
  - unfold Analyze.handle, Analyze.do_OPTIONS.
    destruct (str_eqb (command req) (lit "OPTIONS")) eqn:O; [never_called|].
    destruct (str_eqb (command req) (lit "POST")) eqn:Pm; [|never_called].
    apply bool_decide_eq_true_1 in Pm.
    unfold Analyze.do_POST, try_except.
    destruct (content_length req) as [n|e] eqn:C; [|never_called]. simpl.
    destruct (Z.eqb_spec n 0) as [|N]; [never_called|].
    destruct (payload req) as [data|e] eqn:P; [|never_called].
    destruct data as [| | | | |l|d|]; try never_called.
    simpl. unfold dhas, dgetitem.
    destruct (dget (lit "text") d) as [v|] eqn:T; [|never_called].
    destruct v as [| | | |s| | |]; try never_called.
    simpl. rewrite blank_not_truthy.
    destruct (forallb is_space s) eqn:B; [never_called|].
    simpl. destruct (Analyze.analyze now s) eqn:Ea; repeat (simpl; send); simpl;
      intros I; (apply elem_of_cons in I as [I|I]; [|no_call I]);
      injection I as -> ->; (split; [|reflexivity]); split; eauto 10.
  - unfold App.handle, App.do_OPTIONS.
    destruct (str_eqb (command req) (lit "OPTIONS")) eqn:O; [never_called|].
    destruct (str_eqb (command req) (lit "GET")) eqn:G.
    { unfold App.do_GET. never_called. }
    destruct (str_eqb (command req) (lit "POST")) eqn:Pm; [|never_called].
    apply bool_decide_eq_true_1 in Pm.
    unfold App.do_POST, try_except.
    destruct (str_eqb (before_query (path req)) (lit "/api/analyze")
              || str_eqb (before_query (path req)) (lit "/analyze")) eqn:R;
      [|never_called].
    assert (Rp : on_analysis_path req).
    { unfold on_analysis_path. apply orb_prop in R as [R|R];
        apply bool_decide_eq_true_1 in R; rewrite R.
      - left.
      - right. left. }
    simpl negb. cbv iota.
    destruct (content_length req) as [n|e] eqn:C; [|never_called]. simpl.
    destruct (Z.eqb_spec n 0) as [|N]; [never_called|].
    destruct (payload req) as [data|e] eqn:P; [|never_called].
    destruct data as [| | | | |l|d|]; try never_called.
    simpl. unfold dhas, dgetitem.
    destruct (dget (lit "text") d) as [v|] eqn:T; [|never_called].
    destruct v as [| | | |s| | |]; try never_called.
    simpl. rewrite blank_not_truthy.
    destruct (forallb is_space s) eqn:B; [never_called|].
    assert (Ct : carries_text req s) by (split; eauto 10).
    simpl. destruct evaluator as [f|]; simpl.
    + destruct (f s) as [result|e]; simpl;
        [destruct (App.format_for_frontend now s result); simpl|];
        repeat (simpl; send); simpl;
        intros I; (apply elem_of_cons in I as [I|I]; [|no_call I]);
        injection I as -> ->; auto.
    + destruct (App.analyze_text now s) as [result|e] eqn:Ea; simpl;
        [destruct (App.set_platform result) eqn:Sp; simpl|];
        repeat (simpl; send); simpl;
        intros I; (apply elem_of_cons in I as [I|I]; [|no_call I]);
        injection I as -> ->; auto.
Qed.

End WhenScorersRun.

(* ===================================================================== *)
(** * Paths and the health check *)
(* ===================================================================== *)

(** [self.path.split("?")[0]] is the part of the path before its first
    question mark: it has no question mark, the path continues after it
    with a question mark or not at all, and cutting again changes
    nothing. *)
Theorem before_query_cuts_at_first_mark (p : pystr) :
  (63%N ∉ before_query p)
  /\ (exists rest, p = before_query p ++ rest
                   /\ (rest = [] \/ exists query, rest = 63%N :: query))
  /\ before_query (before_query p) = before_query p
  /\ (forall head query, 63%N ∉ head -> before_query (head ++ 63%N :: query) = head).
Proof.
  split; [|split; [|split]].
  - induction p as [|c p IH]; simpl; [apply not_elem_of_nil|].
    destruct (N.eqb_spec c 63); [apply not_elem_of_nil|].
    apply not_elem_of_cons. split; [congruence|exact IH].
  - induction p as [|c p (rest & E & R)]; simpl.
    + exists []. split; [reflexivity|left; reflexivity].
    + destruct (N.eqb_spec c 63) as [->|].
      * exists (63%N :: p). split; [reflexivity|right; eauto].
      * exists rest. split; [simpl; congruence|exact R].
  - induction p as [|c p IH]; simpl; [reflexivity|].
    destruct (N.eqb_spec c 63) as [|N]; [reflexivity|].
    simpl. destruct (N.eqb_spec c 63); [contradiction|]. congruence.
  - intros head query. induction head as [|c head IH]; simpl; intros N.
    + reflexivity.
    + apply not_elem_of_cons in N as [N1 N2].
      destruct (N.eqb_spec c 63); [congruence|]. rewrite (IH N2). reflexivity.
Qed.

Section Health.
Context `{StrLower}.
Variable evaluator : option (pystr -> res pyval).
Implicit Types (now : timestamp) (req : request).

(** A GET on a health path, with or without a query string, is answered
    200 with the health data, which tells whether the full evaluator is
    installed; the body of the request and its length are not looked at. *)
Theorem health_check now req (query : pystr) :
  command req = lit "GET" ->
  path req ∈ [lit "/health"; lit "/api/health";
              lit "/health" ++ 63%N :: query; lit "/api/health" ++ 63%N :: query] ->
  App.handle evaluator now req
  = ([app_ok (health_data (match evaluator with Some _ => true | None => false end) now)],
     Ok tt).
Proof.
  intros C P. unfold App.handle, App.do_GET. rewrite C.
  repeat (apply elem_of_cons in P as [P|P];
          [rewrite P; rewrite <- send_health_whole; reflexivity|]).
  inversion P.
Qed.

End Health.

(* ===================================================================== *)
(** * The verdict and the majority of the matched words *)
(* ===================================================================== *)

Lemma div_exact_negative_signed (a b : Z) :
  a < 0 -> 0 < b -> signed true (F64.div (F64.exact a) (F64.exact b)).
Proof.
  intros Ha Hb. destruct a as [|a|a]; try lia. destruct b as [|b|b]; try lia.
  unfold F64.div, F64.exact, SFdiv.
  destruct (SFdiv_core_binary F64.prec F64.emax (Z.pos a) 0 (Z.pos b) 0) as [[mz ez] lz].
  apply binary_round_aux_signed.
Qed.

(** A score above 0.05 takes more positive words than negative ones, and
    a score below -0.05 more negative ones. *)
Lemma score_above_threshold (p n w : Z) :
  0 < w -> F64.ltb F64.f0_05 (score_of p n w) = true -> n < p.
Proof.
  intros Hw L. destruct (Z_lt_le_dec n p) as [|Hle]; [assumption|exfalso].
  unfold score_of in L.
  destruct (Z.eq_dec (p - n) 0) as [E|E].
  - rewrite E in L. destruct w; try lia. discriminate L.
  - pose proof (div_exact_negative_signed (p - n) w ltac:(lia) Hw) as S.
    destruct S; discriminate L.
Qed.

Lemma score_below_threshold (p n w : Z) :
  0 < w -> F64.ltb (score_of p n w) (F64.neg F64.f0_05) = true -> p < n.
Proof.
  intros Hw L. destruct (Z_lt_le_dec p n) as [|Hle]; [assumption|exfalso].
  unfold score_of in L.
  destruct (Z.eq_dec (p - n) 0) as [E|E].
  - rewrite E in L. destruct w; try lia. discriminate L.
  - pose proof (div_exact_signed (p - n) w ltac:(lia) Hw) as S.
    destruct S; discriminate L.
Qed.

Lemma classify_majority (p n w : Z) :
  0 < w ->
  (classify (score_of p n w) = verdict_positive -> n < p)
  /\ (classify (score_of p n w) = verdict_negative -> p < n)
  /\ (p = n -> classify (score_of p n w) = verdict_neutral).
Proof.
  intros Hw. rewrite classify_thresholds.
  pose proof (score_above_threshold p n w Hw) as A.
  pose proof (score_below_threshold p n w Hw) as B.
  destruct (F64.ltb F64.f0_05 (score_of p n w)).
  - specialize (A eq_refl). repeat split; intros V; try lia.
    vm_compute in V. discriminate V.
  - destruct (F64.ltb (score_of p n w) (F64.neg F64.f0_05)).
    + specialize (B eq_refl). repeat split; intros V; try lia.
      vm_compute in V. discriminate V.
    + repeat split; intros V; try reflexivity; vm_compute in V; discriminate V.
Qed.

Section Majority.
Context `{StrLower}.
Implicit Types (now text : pystr).

(** The verdict never goes against the count: a text judged positive has
    more positive than negative words, a text judged negative more
    negative than positive ones, and a text with as many of each (and at
    least one) is neutral. *)
Theorem verdict_follows_majority now text :
  let words := split (str_lower text) in
  (matches Analyze.positive_words Analyze.negative_words words ->
   let p := count_in Analyze.positive_words words in
   let n := count_in Analyze.negative_words words in
   (verdict_of (Analyze.analyze now text) = Some verdict_positive -> n < p)
   /\ (verdict_of (Analyze.analyze now text) = Some verdict_negative -> p < n)
   /\ (p = n -> verdict_of (Analyze.analyze now text) = Some verdict_neutral))
  /\
  (matches App.positive_words App.negative_words words ->
   let p := count_in App.positive_words words in
   let n := count_in App.negative_words words in
   (verdict_of (App.analyze_text now text) = Some verdict_positive -> n < p)
   /\ (verdict_of (App.analyze_text now text) = Some verdict_negative -> p < n)
   /\ (p = n -> verdict_of (App.analyze_text now text) = Some verdict_neutral)).
Proof.
  intros words. split; intros M p n.
  - rewrite (verdict_of_analyze_scored now text M). fold words p n.
    assert (W : 0 < len words).
    { apply matches_count in M.
      pose proof (count_in_disjoint _ _ words analyze_lexicons_disjoint). lia. }
    destruct (classify_majority p n (len words) W) as (A & B & C).
    repeat split.
    + intros [= V]. exact (A V).
    + intros [= V]. exact (B V).
    + intros E. rewrite (C E). reflexivity.
  - rewrite (verdict_of_analyze_text_scored now text M). fold words p n.
    assert (W : 0 < len words).
    { apply matches_count in M.
      pose proof (count_in_disjoint _ _ words app_lexicons_disjoint). lia. }
    destruct (classify_majority p n (len words) W) as (A & B & C).
    repeat split.
    + intros [= V]. exact (A V).
    + intros [= V]. exact (B V).
    + intros E. rewrite (C E). reflexivity.
Qed.

End Majority.

(* ===================================================================== *)
(** * The confidence is a number of thousandths *)
(* ===================================================================== *)

Section Thousandths.
Context `{StrLower}.
Implicit Types (now text : pystr).

(** The confidence of a scored text is a whole number of thousandths from
    0.300 to 1.000, read as a double; the fallback scorer of app.py
    repeats it under [scores]. *)
Theorem scored_confidence_is_thousandths now text :
  let words := split (str_lower text) in
  (matches Analyze.positive_words Analyze.negative_words words ->
   exists k, 300 <= k <= 1000
     /\ field "confidence" (Analyze.analyze now text) = Some (PFloat (thousandths k)))
  /\ (matches App.positive_words App.negative_words words ->
      exists k scores, 300 <= k <= 1000
        /\ field "confidence" (App.analyze_text now text) = Some (PFloat (thousandths k))
        /\ field "scores" (App.analyze_text now text) = Some (PDict scores)
        /\ dget (lit "confidence") scores = Some (PFloat (thousandths k))).
Proof.
  intros words. split; intros M.
  - pose proof M as Mc. apply matches_count in Mc.
    pose proof (count_in_disjoint _ _ words analyze_lexicons_disjoint) as D.
    destruct (confidence_of_thousandths
                (count_in Analyze.positive_words words
                 + count_in Analyze.negative_words words) (len words)) as (k & K & E);
      [lia|lia|].
    exists k. split; [exact K|].
    rewrite (confidence_of_analyze_scored now text M). fold words. rewrite E.
    reflexivity.
  - pose proof M as Mc. apply matches_count in Mc.
    pose proof (count_in_disjoint _ _ words app_lexicons_disjoint) as D.
    destruct (confidence_of_thousandths
                (count_in App.positive_words words
                 + count_in App.negative_words words) (len words)) as (k & K & E);
      [lia|lia|].
    exists k. rewrite (analyze_text_scored now text M). fold words. rewrite E.
    destruct (classify _) as [[sentiment message] emoji].
    eexists. split; [exact K|].
    split; [lookup; reflexivity|]. split; [lookup; reflexivity|].
    lookup. reflexivity.
Qed.

End Thousandths.

(* ===================================================================== *)
(** * Requests that end in an internal error *)
(* ===================================================================== *)

Section InternalErrors.
Context `{StrLower}.
Variable evaluator : option (pystr -> res pyval).
Implicit Types (now : timestamp) (req : request).

(** What [except Exception] catches before any scorer runs: a
    Content-Length that is no integer, a body that cannot be decoded or
    whose parsing fails with anything but [JSONDecodeError], a JSON null,
    boolean or number (the test for [text] raises [TypeError]), and a JSON
    string or array that contains "text" (indexing it raises
    [TypeError]).  Each gets the 500 answer with the text of the
    exception; a JSON string or array without "text" gets the 400 answer
    of a missing field. *)
Theorem requests_that_fail_inside now req :
  (forall e, content_length req = Raise e ->
     Analyze.do_POST now req = analyze_internal_error e)
  /\ (forall n, content_length req = Ok n -> n <> 0 ->
      (forall e, payload req = Raise e -> e <> JSONDecodeError ->
         Analyze.do_POST now req = analyze_internal_error e)
      /\ (forall data, payload req = Ok data -> is_scalar data = true ->
            Analyze.do_POST now req = analyze_internal_error TypeError)
      /\ (forall s, payload req = Ok (PStr s) ->
            Analyze.do_POST now req
            = if contains s (lit "text") then analyze_internal_error TypeError
              else analyze_rejection "Missing text field")
      /\ (forall l, payload req = Ok (PList l) ->
            Analyze.do_POST now req
            = if existsb (is_str (lit "text")) l then analyze_internal_error TypeError
              else analyze_rejection "Missing text field")).
Proof.
  split; [intros e C|intros n C N; split; [intros e P E|split; [intros data P S|
    split; [intros s P|intros l P]]]];
    unfold Analyze.do_POST; rewrite C; simpl;
    try (destruct (Z.eqb_spec n 0); [contradiction|]; rewrite P; simpl).
  - reflexivity.
  - destruct e; try reflexivity. contradiction.
  - destruct data; try discriminate S; reflexivity.
  - destruct (contains s (lit "text")); reflexivity.
  - destruct (existsb (is_str (lit "text")) l); reflexivity.
Qed.

End InternalErrors.

Section AppInternalErrors.
Context `{StrLower}.
Variable evaluator : option (pystr -> res pyval).
Implicit Types (now : timestamp) (req : request).

(** The same in app.py, on an analysis path. *)
Theorem app_requests_that_fail_inside now req :
  on_analysis_path req ->
  (forall e, content_length req = Raise e ->
     App.do_POST evaluator now req = ([app_internal_error now e], Ok tt))
  /\ (forall n, content_length req = Ok n -> n <> 0 ->
      (forall e, payload req = Raise e -> e <> JSONDecodeError ->
         App.do_POST evaluator now req = ([app_internal_error now e], Ok tt))
      /\ (forall data, payload req = Ok data -> is_scalar data = true ->
            App.do_POST evaluator now req = ([app_internal_error now TypeError], Ok tt))
      /\ (forall s, payload req = Ok (PStr s) ->
            App.do_POST evaluator now req
            = if contains s (lit "text") then ([app_internal_error now TypeError], Ok tt)
              else app_rejection now "Missing 'text' field")
      /\ (forall l, payload req = Ok (PList l) ->
            App.do_POST evaluator now req
            = if existsb (is_str (lit "text")) l
              then ([app_internal_error now TypeError], Ok tt)
              else app_rejection now "Missing 'text' field")).
Proof.
  intros R. apply on_analysis_path_test in R.
  split; [intros e C|intros n C N; split; [intros e P E|split; [intros data P S|
    split; [intros s P|intros l P]]]];
    unfold App.do_POST; rewrite R, C; simpl;
    try (destruct (Z.eqb_spec n 0); [contradiction|]; rewrite P; simpl).
  - rewrite send_internal_error_whole. reflexivity.
  - destruct e; try (simpl; rewrite send_internal_error_whole; reflexivity).
    contradiction.
  - destruct data; try discriminate S; simpl; rewrite send_internal_error_whole;
      reflexivity.
  - destruct (contains s (lit "text")); simpl;
      [rewrite send_internal_error_whole|rewrite send_error_response_whole];
      reflexivity.
  - destruct (existsb (is_str (lit "text")) l); simpl;
      [rewrite send_internal_error_whole|rewrite send_error_response_whole];
      reflexivity.
Qed.

End AppInternalErrors.

(* ===================================================================== *)
(** * The properties on sample requests *)
(* ===================================================================== *)

Lemma analyze_post_validation_witness :
  Analyze.do_POST (H := ascii_str_lower) sample_now empty_object_request
  = analyze_rejection "Missing text field".
Proof.
  destruct (analyze_post_validation (H := ascii_str_lower) sample_now empty_object_request)
    as [_ V].
  destruct (V 2 eq_refl ltac:(lia)) as [_ D].
  destruct (D [] eq_refl) as [T _]. apply T. reflexivity.
Defined.

Lemma app_post_validation_witness :
  App.do_POST (H := ascii_str_lower) None sample_now empty_object_request
  = app_rejection sample_now "Missing 'text' field".
Proof.
  destruct (app_post_validation (H := ascii_str_lower) None sample_now empty_object_request)
    as [_ V]; [apply (bool_decide_unpack _); vm_compute; exact I|].
  destruct (V 2 eq_refl ltac:(lia)) as [_ D].
  destruct (D [] eq_refl) as [T _]. apply T. reflexivity.
Defined.

Lemma analyze_post_scores_witness :
  exists result,
    Analyze.analyze (H := ascii_str_lower) sample_now hit_text = Ok (PDict result)
    /\ Analyze.do_POST (H := ascii_str_lower) sample_now valid_request
       = ([CallScorer SimpleScorer hit_text;
           SendResponse 200 Analyze.headers (Some (PDict result))],
          Ok tt).
Proof.
  apply (analyze_post_scores (H := ascii_str_lower) sample_now valid_request 21
           [(lit "text", PStr hit_text)] hit_text);
    try reflexivity. lia.
Defined.

Lemma app_fallback_scores_witness :
  exists body,
    App.do_POST (H := ascii_str_lower) None sample_now valid_request
    = ([CallScorer SimpleScorer hit_text; app_ok (PDict body)], Ok tt)
    /\ metadata_field "platform" (Ok (PDict body))
       = Some (PStr (lit "Vercel Serverless")).
Proof.
  destruct (app_fallback_scores (H := ascii_str_lower) sample_now valid_request 21
              [(lit "text", PStr hit_text)] hit_text)
    as (result & metadata & body & _ & _ & E & _ & metadata' & M & P & _);
    try reflexivity.
  - apply (bool_decide_unpack _). vm_compute. exact I.
  - lia.
  - apply (bool_decide_unpack _). vm_compute. exact I.
  - exists body. split; [exact E|].
    unfold metadata_field, field. rewrite M. exact P.
Defined.

Lemma app_fallback_without_match_fails_witness :
  statuses (App.do_POST (H := ascii_str_lower) None sample_now plain_request) = [500].
Proof.
  rewrite (app_fallback_without_match_fails (H := ascii_str_lower) sample_now plain_request
             33 [(lit "text", PStr plain_text)] plain_text);
    try reflexivity.
  - apply (bool_decide_unpack _). vm_compute. exact I.
  - lia.
  - apply (bool_decide_unpack _). vm_compute. exact I.
Defined.



Lemma scorer_runs_on_valid_text_only_witness :
  carries_text valid_request hit_text /\ on_analysis_path valid_request.
Proof.
  destruct (scorer_runs_on_valid_text_only (H := ascii_str_lower) None sample_now
              valid_request SimpleScorer hit_text) as [_ A].
  destruct A as (C & R & _); [|split; assumption].
  vm_compute. left.
Defined.

Lemma before_query_cuts_at_first_mark_witness :
  before_query (lit "/health" ++ 63%N :: lit "probe=1") = lit "/health".
Proof.
  destruct (before_query_cuts_at_first_mark (path health_request)) as (_ & _ & _ & C).
  apply C. apply (bool_decide_unpack _). vm_compute. exact I.
Defined.

Lemma health_check_witness :
  App.handle (H := ascii_str_lower) (Some mixed_evaluator) sample_now health_request
  = ([app_ok (health_data true sample_now)], Ok tt).
Proof.
  apply (health_check (H := ascii_str_lower) (Some mixed_evaluator) sample_now
           health_request (lit "probe=1")); [reflexivity|].
  apply (bool_decide_unpack _). vm_compute. exact I.
Defined.

Lemma verdict_follows_majority_witness :
  count_in Analyze.negative_words (split (ascii_lower hit_text))
  < count_in Analyze.positive_words (split (ascii_lower hit_text)).
Proof.
  destruct (verdict_follows_majority (H := ascii_str_lower) sample_now hit_text) as [A _].
  destruct A as (P & _ & _); [apply (bool_decide_unpack _); vm_compute; exact I|].
  apply P. vm_compute. reflexivity.
Defined.

Lemma requests_that_fail_inside_witness :
  Analyze.do_POST (H := ascii_str_lower) sample_now bad_length_request
  = analyze_internal_error ValueError
  /\ Analyze.do_POST (H := ascii_str_lower) sample_now number_body_request
     = analyze_internal_error TypeError.
Proof.
  split.
  - apply (requests_that_fail_inside (H := ascii_str_lower) sample_now bad_length_request).
    reflexivity.
  - destruct (requests_that_fail_inside (H := ascii_str_lower) sample_now
                number_body_request) as [_ V].
    destruct (V 1 eq_refl ltac:(lia)) as (_ & S & _).
    apply (S (PInt 5)); reflexivity.
Defined.

Lemma app_requests_that_fail_inside_witness :
  App.do_POST (H := ascii_str_lower) None sample_now bad_length_request
  = ([app_internal_error sample_now ValueError], Ok tt).
Proof.
  apply (app_requests_that_fail_inside (H := ascii_str_lower) None sample_now
           bad_length_request); [|reflexivity].
  apply (bool_decide_unpack _). vm_compute. exact I.
Defined.

Lemma scored_confidence_is_thousandths_witness :
  exists k, 300 <= k <= 1000
    /\ field "confidence" (Analyze.analyze (H := ascii_str_lower) sample_now hit_text)
       = Some (PFloat (thousandths k)).
Proof.
  apply (scored_confidence_is_thousandths (H := ascii_str_lower) sample_now hit_text).
  apply (bool_decide_unpack _). vm_compute. exact I.
Defined.

Lemma early_returns_without_metadata_witness :
  field "metadata" (App.analyze_text (H := ascii_str_lower) sample_now plain_text) = None.
Proof.
  apply (early_returns_without_metadata (H := ascii_str_lower) sample_now plain_text).
  right. apply (bool_decide_unpack _). vm_compute. exact I.
Defined.
